(** * react-flip-move: the prop converter

    A shallow embedding of [src/prop-converter.js]: the higher-order
    component [propConverter] whose method [convertProps] turns the loosely
    typed props a caller hands to [FlipMove] into the props of the composed
    component, plus a bag of [delegated] props.

    JavaScript values are a Rocq inductive; objects are finite maps from
    property names to values; numbers are IEEE 754 binary64 values
    ([spec_float] at precision 53); console output is an explicit log that is
    threaded through the computation, and a thrown exception is the absence of
    a result. Values carry no identity of their own: equality of two values
    is equality of their contents, and [===] on functions is equality of
    their names. *)

From Stdlib Require Import Floats.SpecFloat ZArith Ascii String List Lia.
From stdpp Require Import gmap strings list fin_maps pretty.

#[local] Set Warnings "-register-all".

(** Decides a closed membership, or non-membership, in a list of names. *)
Ltac by_table := apply (bool_decide_unpack _); vm_compute; exact I.

(** ** JavaScript values *)

(** A JavaScript number: a binary64 float. *)
Abbreviation number := spec_float.

Definition prec : Z := 53.
Definition emax : Z := 1024.

(** The number denoted by an integer literal of the source ([350], [0]). *)
Definition ofZ (z : Z) : number := binary_normalize prec emax z 0 false.

(** The values the converter handles. [VFun] is a function supplied from
    outside the module, known by a name only; [VArrow v] is the closure
    [() => animation] of [convertAnimationProp] with [animation] bound to [v].
    [VElem] is a React element: its [type], its [key] ([None] is [null]; React
    keeps keys as strings), its [ref] and its [props]. *)
Inductive JSValue : Type :=
| VUndefined
| VNull
| VBool (b : bool)
| VNum (n : number)
| VStr (s : string)
| VFun (name : string)
| VArrow (captured : JSValue)
| VObj (fields : gmap string JSValue)
| VArr (items : list JSValue)
| VElem (type : JSValue) (key : option string) (ref : JSValue)
    (props : gmap string JSValue).

(** A plain object: own enumerable properties by name. *)
Abbreviation Obj := (gmap string JSValue).

(** [o[k]] for a key that the prototype chain does not define: the own
    property, or [undefined]. *)
Definition get (o : Obj) (k : string) : JSValue :=
  default VUndefined (o !! k).

(** The [typeof] operator. *)
Definition typeof (v : JSValue) : string :=
  match v with
  | VUndefined => "undefined"
  | VBool _ => "boolean"
  | VNum _ => "number"
  | VStr _ => "string"
  | VFun _ | VArrow _ => "function"
  | VNull | VObj _ | VArr _ | VElem _ _ _ _ => "object"
  end.

Definition is_nan (n : number) : bool :=
  match n with S754_nan => true | _ => false end.

(** [Number.isInteger]: a finite float whose value [m * 2^e] is integral. *)
Definition isInteger (n : number) : bool :=
  match n with
  | S754_zero _ => true
  | S754_finite _ m e =>
      (0 <=? e)%Z || (Z.pos m mod 2 ^ (- e) =? 0)%Z
  | _ => false
  end.

(** ** parseInt *)

(** Code units are the characters of a Rocq string (0 to 255): the white
    space of [StrWhiteSpaceChar] in that range is TAB, LF, VT, FF, CR, SP and
    NBSP. *)
Definition isStrWhiteSpaceChar (c : ascii) : bool :=
  let n := nat_of_ascii c in
  ((n =? 9) || (n =? 10) || (n =? 11) || (n =? 12) || (n =? 13) || (n =? 32)
   || (n =? 160))%nat.

Fixpoint trimStart (s : string) : string :=
  match s with
  | String c s' => if isStrWhiteSpaceChar c then trimStart s' else s
  | EmptyString => EmptyString
  end.

(** The value of a digit in radixes up to 36. *)
Definition digitValue (c : ascii) : option Z :=
  let n := Z.of_nat (nat_of_ascii c) in
  if ((48 <=? n) && (n <=? 57))%Z then Some (n - 48)%Z
  else if ((97 <=? n) && (n <=? 122))%Z then Some (n - 87)%Z
  else if ((65 <=? n) && (n <=? 90))%Z then Some (n - 55)%Z
  else None.

(** The mathematical integer of the longest prefix of radix-[R] digits;
    [acc] is [None] until a digit has been read. *)
Fixpoint parseDigits (R : Z) (s : string) (acc : option Z) : option Z :=
  match s with
  | String c s' =>
      match digitValue c with
      | Some d =>
          if (d <? R)%Z
          then parseDigits R s' (Some (default 0%Z acc * R + d)%Z)
          else acc
      | None => acc
      end
  | EmptyString => acc
  end.

Definition stripSign (s : string) : bool * string :=
  match s with
  | String "-" s' => (true, s')
  | String "+" s' => (false, s')
  | _ => (false, s)
  end.

Definition stripHexPrefix (s : string) : option string :=
  match s with
  | String "0" (String "x" s') | String "0" (String "X" s') => Some s'
  | _ => None
  end.

(** [parseInt(string, radix)] on a string argument (ECMAScript 18.2.5). The
    digits are read exactly and the signed integer is rounded to the nearest
    binary64 value. *)
Definition parseInt (s : string) (radix : Z) : number :=
  let '(negative, str) := stripSign (trimStart s) in
  if ((radix =? 0) || ((2 <=? radix) && (radix <=? 36)))%Z then
    let '(R, digits) :=
      if ((radix =? 0) || (radix =? 16))%Z then
        match stripHexPrefix str with
        | Some str' => (16%Z, str')
        | None => ((if (radix =? 0)%Z then 10 else radix)%Z, str)
        end
      else (radix, str) in
    match parseDigits R digits None with
    | None => S754_nan
    | Some mathInt =>
        binary_normalize prec emax
          (if negative then - mathInt else mathInt)%Z 0 negative
    end
  else S754_nan.

(** ** Objects: spread, keys, omit *)

(** The characters of a string as one-character strings. *)
Fixpoint codeUnits (s : string) : list JSValue :=
  match s with
  | EmptyString => []
  | String c s' => VStr (String c EmptyString) :: codeUnits s'
  end.

(** The object whose properties are the indices of a list: ["0"], ["1"], ... *)
Definition indexed (l : list JSValue) : Obj :=
  list_to_map (imap (λ i v, (pretty i, v)) l).

(** Modelled from the spec: [omit] of [src/helpers.js], which is not among the
    sources; its contract is [omit(object, keysToRemove) ->
    newObjectWithoutThoseKeys]. *)
Definition omit (obj : Obj) (attrs : list string) : Obj :=
  filter (λ kv, kv.1 ∉ attrs) obj.

(** [Object.keys(o)]. The enumeration order is not modelled: its only use is
    as the key set handed to [omit]. *)
Definition Object_keys (o : Obj) : list string := (map_to_list o).*1.

(** ** React.Children.toArray

    The children helpers of React 15 ([traverseAllChildren],
    [mapIntoWithKeyPrefixInternal]): the tree of children is walked left to
    right; [undefined], [null] and booleans give nothing, strings and numbers
    are kept, an element is cloned with a key that records its path, a nested
    array is flattened, and a plain object is refused with the invariant
    "Objects are not valid as a React child". A function is skipped. *)

Definition digit36 (d : nat) : ascii :=
  if (d <? 10)%nat then ascii_of_nat (48 + d) else ascii_of_nat (87 + d).

Fixpoint toString36_aux (fuel n : nat) (acc : string) : string :=
  match fuel with
  | O => acc
  | S fuel' =>
      let acc' := String (digit36 (n mod 36)) acc in
      if (n / 36 =? 0)%nat then acc' else toString36_aux fuel' (n / 36) acc'
  end.

(** [index.toString(36)]. *)
Definition toString36 (n : nat) : string := toString36_aux (S n) n "".

(** [KeyEscapeUtils.escape]: ["="] becomes ["=0"], [":"] becomes ["=2"], and
    the result is prefixed with ["$"]. *)
Fixpoint escapeChars (key : string) : string :=
  match key with
  | EmptyString => EmptyString
  | String c key' =>
      (if Ascii.eqb c "=" then "=0"
       else if Ascii.eqb c ":" then "=2"
       else String c EmptyString) +:+ escapeChars key'
  end.

Definition escape (key : string) : string := "$" +:+ escapeChars key.

(** [getComponentKey(component, index)]: the escaped key of a keyed element,
    the index in base 36 otherwise. (A plain object stops the traversal
    whatever name it is given.) *)
Definition getComponentKey (component : JSValue) (index : nat) : string :=
  match component with
  | VElem _ (Some key) _ _ => escape key
  | _ => toString36 index
  end.

Definition cloneAndReplaceKey (oldElement : JSValue) (newKey : string)
  : JSValue :=
  match oldElement with
  | VElem type _ ref props => VElem type (Some newKey) ref props
  | _ => oldElement
  end.

Definition SEPARATOR : string := ".".
Definition SUBSEPARATOR : string := ":".

(** The loop over the items of an array of children; [traverse] is the
    traversal of one child. *)
Definition traverseItems (traverse : JSValue → string → option (list JSValue))
  (nextNamePrefix : string) : list JSValue → nat → option (list JSValue) :=
  fix each (l : list JSValue) (i : nat) : option (list JSValue) :=
    match l with
    | [] => Some []
    | child :: l' =>
        match traverse child (nextNamePrefix +:+ getComponentKey child i) with
        | Some mapped =>
            match each l' (S i) with
            | Some rest => Some (mapped ++ rest)
            | None => None
            end
        | None => None
        end
    end.

(** [None] is the thrown invariant. *)
Fixpoint traverseAllChildren (children : JSValue) (nameSoFar : string)
  {struct children} : option (list JSValue) :=
  match children with
  | VUndefined | VNull | VBool _ => Some []
  | VStr _ | VNum _ => Some [children]
  | VElem _ _ _ _ =>
      Some [cloneAndReplaceKey children
              (if String.eqb nameSoFar ""
               then SEPARATOR +:+ getComponentKey children 0
               else nameSoFar)]
  | VArr items =>
      let nextNamePrefix :=
        if String.eqb nameSoFar "" then SEPARATOR
        else nameSoFar +:+ SUBSEPARATOR in
      traverseItems traverseAllChildren nextNamePrefix items 0%nat
  | VObj _ => None
  | VFun _ | VArrow _ => Some []
  end.

Definition React_Children_toArray (children : JSValue)
  : option (list JSValue) :=
  traverseAllChildren children "".

(** ** Console output and exceptions *)

(** The messages of [src/error-messages.js] (not among the sources), kept
    as the call that builds them: the builder and its arguments. *)
Inductive Message : Type :=
| statelessFunctionalComponentSupplied
| invalidTypeForTimingProp (prop : string) (value defaultValue : JSValue)
| deprecatedDisableAnimations.

Inductive Diagnostic : Type :=
| ConsoleWarn (message : Message)
| ConsoleError (message : Message).

(** A computation reads the console written so far and either throws
    ([None]) or returns a value and the console extended. *)
Definition M (A : Type) : Type :=
  list Diagnostic → option (A * list Diagnostic).

#[global] Instance M_ret : MRet M := λ A x console, Some (x, console).

#[global] Instance M_bind : MBind M := λ A B f c console,
  match c console with
  | Some (x, console') => f x console'
  | None => None
  end.

Definition throw {A : Type} : M A := λ _, None.

Definition liftOption {A : Type} (o : option A) : M A :=
  match o with Some x => mret x | None => throw end.

Definition console_warn (m : Message) : M unit :=
  λ console, Some (tt, console ++ [ConsoleWarn m]).

Definition console_error (m : Message) : M unit :=
  λ console, Some (tt, console ++ [ConsoleError m]).

(** [Array.prototype.every]: stops at the first child the callback
    rejects. *)
Fixpoint every (callback : JSValue → M bool) (l : list JSValue) : M bool :=
  match l with
  | [] => mret true
  | x :: l' =>
      ok ← callback x;
      if ok : bool then every callback l' else mret false
  end.

(** [Array.prototype.forEach] with the variable the callback assigns to
    threaded through. *)
Fixpoint forEach {S : Type} (l : list string) (callback : string → S → M S)
  (st : S) : M S :=
  match l with
  | [] => mret st
  | x :: l' => st' ← callback x st; forEach l' callback st'
  end.

(** [child.key]: reading a property of [undefined] or [null] throws; strings,
    numbers and the other values have no property of that name. *)
Definition keyOf (child : JSValue) : M JSValue :=
  match child with
  | VUndefined | VNull => throw
  | VObj o => mret (get o "key")
  | VElem _ (Some key) _ _ => mret (VStr key)
  | VElem _ None _ _ => mret VNull
  | _ => mret VUndefined
  end.

(** The result of calling one of the closures this module builds, with any
    arguments: [() => animation] returns the captured value. Calls of other
    values are outside the model ([None]). *)
Definition callArrow (f : JSValue) (args : list JSValue) : option JSValue :=
  match f with
  | VArrow captured => Some captured
  | _ => None
  end.

(** ** The component's static tables *)

(** The validators of [React.PropTypes] that the source uses. *)
Inductive PropType : Type :=
| PropTypes_node
| PropTypes_string
| PropTypes_number
| PropTypes_func
| PropTypes_bool
| PropTypes_oneOfType (alternatives : list PropType)
| PropTypes_shape (fields : list (string * PropType))
| isRequired (t : PropType).

Definition stringOrNumber : PropType :=
  PropTypes_oneOfType [PropTypes_string; PropTypes_number].

Definition shapeOrFunc : PropType :=
  PropTypes_oneOfType
    [PropTypes_shape [("from", PropTypes_string); ("to", PropTypes_string)];
     PropTypes_func].

(** [FlipMovePropConverter.propTypes] (lines 123-164), in declaration
    order. *)
Definition propTypes : list (string * PropType) :=
  [("children", PropTypes_node);
   ("easing", PropTypes_string);
   ("duration", stringOrNumber);
   ("delay", stringOrNumber);
   ("staggerDurationBy", stringOrNumber);
   ("staggerDelayBy", stringOrNumber);
   ("onStart", PropTypes_func);
   ("onFinish", PropTypes_func);
   ("onStartAll", PropTypes_func);
   ("onFinishAll", PropTypes_func);
   ("typeName", PropTypes_string);
   ("enterClassName", shapeOrFunc);
   ("leaveClassName", shapeOrFunc);
   ("disableAllAnimations", PropTypes_bool);
   ("getPosition", PropTypes_func);
   ("maintainContainerHeight", isRequired PropTypes_bool)].

Definition timingPropNames : list string :=
  ["duration"; "delay"; "staggerDurationBy"; "staggerDelayBy"].

(** [convertAnimationProp(animation)] (lines 111-113). *)
Definition convertAnimationProp (animation : JSValue) : JSValue :=
  if String.eqb (typeof animation) "function" then animation
  else VArrow animation.

Section PropConverter.

(** [isElementAnSFC] of [src/helpers.js] and [defaultPreset] of
    [src/enter-leave-presets.js] are not among the sources: the converter is
    parametric in them. *)
Variable isElementAnSFC : JSValue → bool.
Variable defaultPreset : JSValue.

(** What the language leaves to the host: [ToNumber] of strings and, through
    [ToPrimitive], of objects, arrays, functions and elements; and the own
    enumerable properties of functions and elements. *)
Variable ToNumberHost : JSValue → number.
Variable hostOwnProperties : JSValue → Obj.

(** [FlipMovePropConverter.defaultProps] (lines 166-178). *)
Definition defaultProps : Obj :=
  list_to_map
    [("easing", VStr "ease-in-out");
     ("duration", VNum (ofZ 350));
     ("delay", VNum (ofZ 0));
     ("staggerDurationBy", VNum (ofZ 0));
     ("staggerDelayBy", VNum (ofZ 0));
     ("typeName", VStr "div");
     ("enterClassName", defaultPreset);
     ("leaveClassName", defaultPreset);
     ("disableAllAnimations", VBool false);
     ("getPosition", VFun "node => node.getBoundingClientRect()");
     ("maintainContainerHeight", VBool false)].

(** [ToNumber]. *)
Definition ToNumber (v : JSValue) : number :=
  match v with
  | VUndefined => S754_nan
  | VNull => S754_zero false
  | VBool true => ofZ 1
  | VBool false => S754_zero false
  | VNum n => n
  | _ => ToNumberHost v
  end.

(** The global [isNaN]. *)
Definition isNaN (v : JSValue) : bool := is_nan (ToNumber v).

(** The properties an object spread [{...v}] copies. *)
Definition ownProperties (v : JSValue) : Obj :=
  match v with
  | VObj o => o
  | VArr l => indexed l
  | VStr s => indexed (codeUnits s)
  | VFun _ | VArrow _ | VElem _ _ _ _ => hostOwnProperties v
  | VUndefined | VNull | VBool _ | VNum _ => ∅
  end.

(** [convertProps(props)] (lines 30-108), a method of the component whose
    props are [this_props]. *)
Definition convertProps (this_props props : Obj) : M Obj :=
  let workingProps := props in
  children ← liftOption (React_Children_toArray (get props "children"));
  let workingProps := <["children" := VArr children]> workingProps in
  noStateless ←
    every (λ child,
      if negb (isElementAnSFC child) then mret true
      else key ← keyOf child; mret (String.eqb (typeof key) "undefined"))
      children;
  (if negb noStateless
   then console_warn statelessFunctionalComponentSupplied
   else mret tt);;
  workingProps ←
    forEach timingPropNames (λ prop workingProps,
      let rawValue := get workingProps prop in
      let value :=
        match rawValue with
        | VStr s => VNum (parseInt s 10)
        | _ => rawValue
        end in
      if isNaN value then
        let defaultValue := get defaultProps prop in
        console_error (invalidTypeForTimingProp prop value defaultValue);;
        mret (<[prop := defaultValue]> workingProps)
      else mret (<[prop := value]> workingProps))
      workingProps;
  let workingProps :=
    <["enterClassName" :=
        convertAnimationProp (get workingProps "enterClassName")]>
      workingProps in
  let workingProps :=
    <["leaveClassName" :=
        convertAnimationProp (get workingProps "leaveClassName")]>
      workingProps in
  workingProps ←
    (if negb (String.eqb (typeof (get props "disableAnimations")) "undefined")
     then
       console_warn deprecatedDisableAnimations;;
       mret (<["disableAllAnimations" := get props "disableAnimations"]>
               (<["disableAnimations" := VUndefined]> workingProps))
     else mret workingProps);
  let primaryPropKeys := propTypes.*1 in
  let delegatedProps := omit this_props primaryPropKeys in
  let delegatedProps :=
    <["style" :=
        VObj (ownProperties (get delegatedProps "style")
              ∪ {["position" := VStr "relative"]})]>
      delegatedProps in
  let workingProps := omit workingProps (Object_keys delegatedProps) in
  let workingProps := <["delegated" := VObj delegatedProps]> workingProps in
  mret workingProps.

(** *** The steps of [convertProps] as pure functions

    What the callbacks and the straight-line code of [convertProps] compute,
    named so that lemmas can speak about one step at a time; [render_eq]
    below proves that [convertProps] is their composition. *)

(** [typeof child.key !== 'undefined'] for a child that has properties to
    read: an element always has a key, [null] or a string. *)
Definition keyDefined (child : JSValue) : bool :=
  match child with
  | VObj o => negb (String.eqb (typeof (get o "key")) "undefined")
  | VElem _ _ _ _ => true
  | _ => false
  end.

(** The test of the capability check. *)
Definition accepted (child : JSValue) : bool :=
  negb (isElementAnSFC child) || negb (keyDefined child).

(** [value] of the timing loop before the [isNaN] test. *)
Definition coerceTiming (rawValue : JSValue) : JSValue :=
  match rawValue with
  | VStr s => VNum (parseInt s 10)
  | _ => rawValue
  end.

(** [value] of the timing loop when it is stored. *)
Definition timingValue (prop : string) (rawValue : JSValue) : JSValue :=
  if isNaN (coerceTiming rawValue) then get defaultProps prop
  else coerceTiming rawValue.

Definition timingDiagnostics (prop : string) (rawValue : JSValue)
  : list Diagnostic :=
  if isNaN (coerceTiming rawValue)
  then [ConsoleError
          (invalidTypeForTimingProp prop (coerceTiming rawValue)
             (get defaultProps prop))]
  else [].

(** [delegatedProps] after the style merge. *)
Definition delegatedOf (this_props : Obj) : Obj :=
  <["style" :=
      VObj (ownProperties (get (omit this_props propTypes.*1) "style")
            ∪ {["position" := VStr "relative"]})]>
    (omit this_props propTypes.*1).

(** [workingProps] after the timing loop. *)
Definition timedOf (props : Obj) (children : list JSValue) : Obj :=
  foldl (λ acc prop, <[prop := timingValue prop (get props prop)]> acc)
    (<["children" := VArr children]> props) timingPropNames.

(** [workingProps] just before the delegated keys are omitted. *)
Definition workingOf (props : Obj) (children : list JSValue) : Obj :=
  let workingProps := timedOf props children in
  let workingProps :=
    <["enterClassName" :=
        convertAnimationProp (get workingProps "enterClassName")]>
      workingProps in
  let workingProps :=
    <["leaveClassName" :=
        convertAnimationProp (get workingProps "leaveClassName")]>
      workingProps in
  if negb (String.eqb (typeof (get props "disableAnimations")) "undefined")
  then <["disableAllAnimations" := get props "disableAnimations"]>
         (<["disableAnimations" := VUndefined]> workingProps)
  else workingProps.

Definition outputOf (this_props : Obj) (children : list JSValue) : Obj :=
  <["delegated" := VObj (delegatedOf this_props)]>
    (omit (workingOf this_props children)
       (Object_keys (delegatedOf this_props))).

Definition consoleOf (this_props : Obj) (children : list JSValue)
  : list Diagnostic :=
  (if forallb accepted children then []
   else [ConsoleWarn statelessFunctionalComponentSupplied])
  ++ concat (map (λ prop, timingDiagnostics prop (get this_props prop))
               timingPropNames)
  ++ (if negb (String.eqb (typeof (get this_props "disableAnimations"))
                 "undefined")
      then [ConsoleWarn deprecatedDisableAnimations] else []).

(** [render()] (lines 116-120): the props handed to the composed component,
    and the console output, starting from an empty console. *)
Definition render (this_props : Obj) : option (Obj * list Diagnostic) :=
  convertProps this_props this_props [].

Definition isUndefined (v : JSValue) : bool :=
  match v with VUndefined => true | _ => false end.

(** React resolves [defaultProps] when it creates the element: every prop
    that has a default and is [undefined], absent or given so, takes it. *)
Definition resolveDefaultProps (props : Obj) : Obj :=
  map_fold (λ propName defaultValue resolved,
              if isUndefined (get resolved propName)
              then <[propName := defaultValue]> resolved
              else resolved)
    props defaultProps.

(** The field [k] of a result: [None] if the conversion threw, [Some None]
    if the result has no such field. *)
Definition field (result : option (Obj * list Diagnostic)) (k : string)
  : option (option JSValue) :=
  (λ r, r.1 !! k) <$> result.

Definition consoleOutput (result : option (Obj * list Diagnostic))
  : option (list Diagnostic) :=
  snd <$> result.

(** [React.createElement(type, config)] keeps [key] and [ref] (and the
    [__self] and [__source] that the JSX of a development build adds) for
    itself: the names of [RESERVED_PROPS] never become props. *)
Definition RESERVED_PROPS : list string :=
  ["key"; "ref"; "__self"; "__source"].

(** The props of the element React creates from [config]: every own
    property outside [RESERVED_PROPS], then the defaults. *)
Definition createElement_props (config : Obj) : Obj :=
  resolveDefaultProps (omit config RESERVED_PROPS).

(** From the props a caller writes to the props of the composed component:
    React creates the element, then [render] converts its props. *)
Definition normalize (raw : Obj) : option (Obj * list Diagnostic) :=
  render (createElement_props raw).

(** ** Diagnostics of interest *)

(** A timing diagnostic that names the field [prop]. *)
Definition namesField (prop : string) (d : Diagnostic) : bool :=
  match d with
  | ConsoleError (invalidTypeForTimingProp p _ _) => String.eqb p prop
  | _ => false
  end.

Definition isDeprecation (d : Diagnostic) : bool :=
  match d with
  | ConsoleWarn deprecatedDisableAnimations => true
  | _ => false
  end.

Definition isStatelessWarning (d : Diagnostic) : bool :=
  match d with
  | ConsoleWarn statelessFunctionalComponentSupplied => true
  | _ => false
  end.

(** ** Children *)

(** What [React.Children.toArray] can put in its result: a string, a
    number, or an element that has been given a key. *)
Definition canonicalChild (v : JSValue) : bool :=
  match v with
  | VStr _ | VNum _ | VElem _ (Some _) _ _ => true
  | _ => false
  end.

(** A value React accepts as children: no plain object at any depth of the
    arrays. *)
Fixpoint isNode (v : JSValue) : bool :=
  match v with
  | VObj _ => false
  | VArr items => forallb isNode items
  | _ => true
  end.

(** The flat ordered sequence of the specification: the leaves of a tree of
    children in declared order, elements as they were supplied. *)
Fixpoint flatten (v : JSValue) : list JSValue :=
  match v with
  | VStr _ | VNum _ | VElem _ _ _ _ => [v]
  | VArr items => flat_map flatten items
  | _ => []
  end.

(** An element without its key. *)
Definition withoutKey (v : JSValue) : JSValue :=
  match v with
  | VElem type _ ref props => VElem type None ref props
  | _ => v
  end.

(** The key [React.Children.toArray] gives to a child of an array that is
    already canonical. *)
Definition rekey (v : JSValue) : JSValue :=
  match v with
  | VElem type (Some key) ref props =>
      VElem type (Some (SEPARATOR +:+ escape key)) ref props
  | _ => v
  end.

(** ** Sample host and sample props

    A host on which the general statements below are exercised: a
    component given as a function is stateless; plain objects, functions and
    elements convert to NaN, as in every engine; functions and elements
    have no enumerable properties of their own. The default preset of the
    library is the name ['elevator']. *)

Definition sampleSFC (v : JSValue) : bool :=
  match v with
  | VElem (VFun _) _ _ _ => true
  | _ => false
  end.

Definition samplePreset : JSValue := VStr "elevator".

Definition sampleToNumber (v : JSValue) : number := S754_nan.

Definition sampleOwnProperties (v : JSValue) : Obj := ∅.

(** [<div />] and [<Item key="a" />]. *)
Definition divElement : JSValue := VElem (VStr "div") None VNull ∅.

Definition itemElement : JSValue := VElem (VFun "Item") (Some "a") VNull ∅.

(** The number 1.5. *)
Definition onePointFive : number := binary_normalize prec emax 3 (-1) false.

Definition sampleShape : JSValue :=
  VObj (list_to_map [("from", VStr "a"); ("to", VStr "b")]).

(** Props as a caller may write them, after React has filled in the
    defaults that apply. *)
Definition sampleProps : Obj :=
  list_to_map
    [("children", VArr [divElement; VNull; VArr [itemElement; VStr "text"]]);
     ("easing", VStr "ease-in-out");
     ("duration", VStr "abc");
     ("delay", VStr "120ms");
     ("staggerDurationBy", VNum (ofZ 0));
     ("staggerDelayBy", VNum S754_nan);
     ("typeName", VStr "div");
     ("enterClassName", sampleShape);
     ("leaveClassName", VFun "leave");
     ("disableAllAnimations", VBool false);
     ("disableAnimations", VBool true);
     ("getPosition", VFun "node => node.getBoundingClientRect()");
     ("maintainContainerHeight", VBool false);
     ("foo", VNum (ofZ 1));
     ("style", VObj {["color" := VStr "red"]})].

(** The children of [sampleProps] as React flattens them. *)
Definition sampleChildren : list JSValue :=
  [VElem (VStr "div") (Some ".0") VNull ∅;
   VElem (VFun "Item") (Some ".2:$a") VNull ∅;
   VStr "text"].

(** [{duration: 1.5}]. *)
Definition fractionalProps : Obj := {["duration" := VNum onePointFive]}.

(** [{disableAnimations: undefined, disableAllAnimations: false}]. *)
Definition undefinedLegacyProps : Obj :=
  list_to_map
    [("disableAnimations", VUndefined); ("disableAllAnimations", VBool false)].

(** [{delegated: 2}] and [{delegated: 'x', foo: 1}]. *)
Definition delegatedProp : Obj := {["delegated" := VNum (ofZ 2)]}.

Definition delegatedAndFoo : Obj :=
  list_to_map [("delegated", VStr "x"); ("foo", VNum (ofZ 1))].

(** [{children: {a: 1}}]. *)
Definition objectChild : Obj :=
  {["children" := VObj {["a" := VNum (ofZ 1)]}]}.

(** [{children: <div />}]. *)
Definition singleChild : Obj := {["children" := divElement]}.

(** ** Definitions for the further properties *)

(** The result of [convertProps(props)] on a component whose props are
    [this_props]: the bag is computed from [this_props], everything else from
    [props]. *)
Definition outputOfWith (this_props props : Obj) (children : list JSValue)
  : Obj :=
  <["delegated" := VObj (delegatedOf this_props)]>
    (omit (workingOf props children) (Object_keys (delegatedOf this_props))).

(** The props [convertProps] always writes, and the props of the schema that
    it never assigns. *)
Definition writtenProps : list string :=
  "children" :: timingPropNames ++ ["enterClassName"; "leaveClassName"].

Definition untouchedProps : list string :=
  ["easing"; "onStart"; "onFinish"; "onStartAll"; "onFinishAll"; "typeName";
   "getPosition"; "maintainContainerHeight"].

(** Strings as [parseInt(_, 10)] sees them. *)
Definition isDecimalDigit (c : ascii) : bool :=
  match digitValue c with
  | Some d => (d <? 10)%Z
  | None => false
  end.

Definition startsWithDecimalDigit (s : string) : bool :=
  match s with
  | String c _ => isDecimalDigit c
  | EmptyString => false
  end.

Fixpoint allWhiteSpace (s : string) : bool :=
  match s with
  | String c s' => isStrWhiteSpaceChar c && allWhiteSpace s'
  | EmptyString => true
  end.

(** The float with the sign changed, NaN excepted. *)
Definition negate (n : number) : number := SFopp n.

(** Timing props written as text, and [{duration: null}]. *)
Definition numeralProps : Obj :=
  list_to_map
    [("duration", VStr " +42px");
     ("delay", VStr "120ms");
     ("staggerDurationBy", VStr ".5");
     ("staggerDelayBy", VStr "-5")].

Definition nullDurationProps : Obj := {["duration" := VNull]}.

(** [{key: 'k', ref: r, foo: 1}], as passed to [React.createElement]. *)
Definition keyedProps : Obj :=
  list_to_map [("key", VStr "k"); ("ref", VFun "r"); ("foo", VNum (ofZ 1))].

(** [<Item />], without a key, as the only child. *)
Definition keylessItem : Obj :=
  {["children" := VElem (VFun "Item") None VNull ∅]}.

(** * Properties *)

(** ** Induction on trees of children *)

Lemma JSValue_nodes_ind (P : JSValue → Prop) :
  (∀ items, Forall P items → P (VArr items)) →
  (∀ v, (∀ items, v ≠ VArr items) → P v) →
  ∀ v, P v.
Proof.
  intros Harr Hleaf.
  fix IH 1. intros v.
  destruct v as [| | b | n | s | f | c | o | items | t k r p];
    try (apply Hleaf; intros ? ?; discriminate).
  apply Harr. induction items as [| x items IHitems]; constructor.
  - apply IH.
  - exact IHitems.
Qed.

(** ** What [React.Children.toArray] returns *)

Lemma traverseItems_canonical traverse pfx l :
  Forall (λ child, ∀ name mapped,
            traverse child name = Some mapped →
            Forall (λ v, canonicalChild v = true) mapped) l →
  ∀ i out, traverseItems traverse pfx l i = Some out →
           Forall (λ v, canonicalChild v = true) out.
Proof.
  induction 1 as [| child l Hchild _ IH]; intros i out; simpl.
  - intros [= <-]. constructor.
  - destruct (traverse child _) as [mapped |] eqn:Hm; [| discriminate].
    destruct (traverseItems traverse pfx l (S i)) as [rest |] eqn:Hr;
      [| discriminate].
    intros [= <-]. apply Forall_app. split; eauto.
Qed.

Lemma traverseAllChildren_canonical children :
  ∀ name out, traverseAllChildren children name = Some out →
              Forall (λ v, canonicalChild v = true) out.
Proof.
  induction children as [items IH | v Hleaf] using JSValue_nodes_ind.
  - intros name out. simpl. apply traverseItems_canonical. exact IH.
  - intros name out.
    destruct v; simpl; try (intros [= <-]; repeat constructor); try discriminate.
    exfalso. eapply Hleaf. reflexivity.
Qed.

Lemma toArray_canonical children out :
  React_Children_toArray children = Some out →
  Forall (λ v, canonicalChild v = true) out.
Proof. apply traverseAllChildren_canonical. Qed.

Lemma traverseItems_is_Some traverse pfx l :
  Forall (λ child, ∀ name, is_Some (traverse child name) ↔ isNode child = true)
    l →
  ∀ i, is_Some (traverseItems traverse pfx l i) ↔ forallb isNode l = true.
Proof.
  induction 1 as [| child l Hchild _ IH]; intros i; simpl.
  - split; eauto.
  - rewrite andb_true_iff, <- (IH (S i)),
      <- (Hchild (pfx +:+ getComponentKey child i)).
    destruct (traverse child _) as [mapped |];
      [destruct (traverseItems traverse pfx l (S i)) |].
    + split; eauto.
    + split; [intros [? [=]] | intros [_ [? [=]]]].
    + split; [intros [? [=]] | intros [[? [=]] _]].
Qed.

(** The traversal throws exactly on the trees that hold a plain object. *)
Lemma traverseAllChildren_is_Some children :
  ∀ name, is_Some (traverseAllChildren children name) ↔ isNode children = true.
Proof.
  induction children as [items IH | v Hleaf] using JSValue_nodes_ind.
  - intros name. simpl. apply traverseItems_is_Some. exact IH.
  - intros name.
    destruct v; try (exfalso; eapply Hleaf; reflexivity);
      simpl; split; eauto; try discriminate.
    intros [? [=]].
Qed.

Lemma traverseItems_flatten traverse pfx l :
  Forall (λ child, ∀ name mapped,
            traverse child name = Some mapped →
            withoutKey <$> mapped = withoutKey <$> flatten child) l →
  ∀ i out, traverseItems traverse pfx l i = Some out →
           withoutKey <$> out = withoutKey <$> flat_map flatten l.
Proof.
  induction 1 as [| child l Hchild _ IH]; intros i out; simpl.
  - intros [= <-]. reflexivity.
  - destruct (traverse child _) as [mapped |] eqn:Hm; [| discriminate].
    destruct (traverseItems traverse pfx l (S i)) as [rest |] eqn:Hr;
      [| discriminate].
    intros [= <-]. rewrite !fmap_app. f_equal; eauto.
Qed.

(** The result lists the leaves of the tree in declared order; only the keys
    of elements differ. *)
Lemma traverseAllChildren_flatten children :
  ∀ name out, traverseAllChildren children name = Some out →
              withoutKey <$> out = withoutKey <$> flatten children.
Proof.
  induction children as [items IH | v Hleaf] using JSValue_nodes_ind.
  - intros name out. simpl. apply traverseItems_flatten. exact IH.
  - intros name out.
    destruct v; simpl; try (intros [= <-]; reflexivity); try discriminate.
    exfalso. eapply Hleaf. reflexivity.
Qed.

(** Walking an array that is already canonical: every child is kept, in
    place, and an element has its key escaped and prefixed once more. *)
Lemma traverseItems_canonical_input l :
  Forall (λ v, canonicalChild v = true) l →
  ∀ i, traverseItems traverseAllChildren SEPARATOR l i = Some (rekey <$> l).
Proof.
  induction 1 as [| child l Hchild _ IH]; intros i; simpl; [reflexivity |].
  rewrite IH.
  destruct child as [| | | | | | | | | t [k |] r p]; try discriminate;
    reflexivity.
Qed.

Lemma toArray_canonical_input l :
  Forall (λ v, canonicalChild v = true) l →
  React_Children_toArray (VArr l) = Some (rekey <$> l).
Proof. intros Hl. exact (traverseItems_canonical_input l Hl 0%nat). Qed.

(** ** Membership in the static tables *)

Lemma timingPropNames_primary prop :
  prop ∈ timingPropNames → prop ∈ propTypes.*1.
Proof.
  unfold timingPropNames. rewrite !elem_of_cons, elem_of_nil.
  intros [-> | [-> | [-> | [-> | []]]]]; by_table.
Qed.

Lemma animationProps_primary prop :
  prop ∈ ["enterClassName"; "leaveClassName"] → prop ∈ propTypes.*1.
Proof.
  rewrite !elem_of_cons, elem_of_nil. intros [-> | [-> | []]]; by_table.
Qed.

(** ** The steps of [convertProps] *)

Lemma bind_Some {A B : Type} (c : M A) (f : A → M B) console x console' :
  c console = Some (x, console') → (c ≫= f) console = f x console'.
Proof. unfold mbind, M_bind. intros ->. reflexivity. Qed.

(** On a canonical list of children the capability check reads no property
    of [undefined] or [null]: it does not throw and writes nothing itself. *)
Lemma every_accepted l console :
  Forall (λ v, canonicalChild v = true) l →
  every (λ child,
      if negb (isElementAnSFC child) then mret true
      else key ← keyOf child; mret (String.eqb (typeof key) "undefined"))
    l console
  = Some (forallb accepted l, console).
Proof.
  induction 1 as [| child l Hchild _ IH]; simpl; [reflexivity |].
  unfold mbind, M_bind, accepted.
  destruct child as [| | | | | | | | | t [k |] r p]; try discriminate;
    destruct (isElementAnSFC _); simpl; try apply IH; reflexivity.
Qed.

(** The timing loop, for names that are pairwise distinct: each field is
    read from the props the loop started with. *)
Lemma forEach_timing (props : Obj) names :
  NoDup names →
  ∀ (acc : Obj) console,
    (∀ prop, prop ∈ names → get acc prop = get props prop) →
    forEach names (λ prop workingProps,
        let rawValue := get workingProps prop in
        let value :=
          match rawValue with
          | VStr s => VNum (parseInt s 10)
          | _ => rawValue
          end in
        if isNaN value then
          let defaultValue := get defaultProps prop in
          console_error (invalidTypeForTimingProp prop value defaultValue);;
          mret (<[prop := defaultValue]> workingProps)
        else mret (<[prop := value]> workingProps))
      acc console
    = Some (foldl (λ acc prop,
                     <[prop := timingValue prop (get props prop)]> acc)
              acc names,
            console
            ++ concat (map (λ prop, timingDiagnostics prop (get props prop))
                         names)).
Proof.
  induction 1 as [| name names Hfresh _ IH]; intros acc console Hacc; simpl.
  - rewrite app_nil_r. reflexivity.
  - assert (Hname : get acc name = get props name)
      by (apply Hacc; left).
    assert (Hrest : ∀ v prop, prop ∈ names →
                      get (<[name := v]> acc) prop = get props prop).
    { intros v prop Hin. unfold get. rewrite lookup_insert_ne.
      - apply Hacc. right. exact Hin.
      - intros ->. contradiction. }
    unfold mbind at 1, M_bind at 1. rewrite Hname.
    fold (coerceTiming (get props name)).
    unfold timingValue at 2, timingDiagnostics at 1.
    destruct (isNaN (coerceTiming (get props name))); simpl.
    + rewrite IH by (apply Hrest). rewrite <- app_assoc. reflexivity.
    + rewrite IH by (apply Hrest). reflexivity.
Qed.

Lemma NoDup_timingPropNames : NoDup timingPropNames.
Proof. by_table. Qed.

(** [convertProps] on the component's own props is the composition of its
    steps, and throws only where [React.Children.toArray] does. *)
Lemma render_eq this_props children :
  React_Children_toArray (get this_props "children") = Some children →
  render this_props
  = Some (outputOf this_props children, consoleOf this_props children).
Proof.
  intros Hchildren.
  pose proof (toArray_canonical _ _ Hchildren) as Hcanonical.
  unfold render, convertProps. rewrite Hchildren.
  erewrite bind_Some by reflexivity. cbv beta zeta.
  erewrite bind_Some by (apply every_accepted; exact Hcanonical).
  unfold consoleOf, outputOf, workingOf.
  assert (Hread : ∀ prop, prop ∈ timingPropNames →
            get (<["children" := VArr children]> this_props) prop
            = get this_props prop).
  { intros prop Hin. unfold get. rewrite lookup_insert_ne; [reflexivity |].
    intros <-. revert Hin. by_table. }
  destruct (forallb accepted children); cbv beta iota zeta.
  all: erewrite bind_Some by reflexivity.
  all: erewrite bind_Some
         by (apply forEach_timing; [apply NoDup_timingPropNames | exact Hread]).
  all: fold (timedOf this_props children).
  all: destruct (negb (String.eqb (typeof (get this_props "disableAnimations"))
                         "undefined")).
  all: try (erewrite bind_Some by reflexivity).
  all: try (erewrite bind_Some by reflexivity).
  all: unfold mret, M_ret, delegatedOf; rewrite ?app_nil_r, ?app_nil_l.
  all: reflexivity.
Qed.

Lemma render_throws this_props :
  React_Children_toArray (get this_props "children") = None →
  render this_props = None.
Proof.
  intros Hchildren. unfold render, convertProps. rewrite Hchildren.
  reflexivity.
Qed.

(** ** Looking up the result *)

Lemma lookup_omit (o : Obj) attrs k :
  omit o attrs !! k = if decide (k ∈ attrs) then None else o !! k.
Proof.
  unfold omit. destruct (decide (k ∈ attrs)) as [Hin | Hout].
  - apply map_lookup_filter_None. right. intros v _ Hk. exact (Hk Hin).
  - destruct (o !! k) as [v |] eqn:Hk.
    + apply map_lookup_filter_Some. split; [exact Hk | exact Hout].
    + apply map_lookup_filter_None. left. exact Hk.
Qed.

Lemma elem_of_Object_keys (o : Obj) k :
  k ∈ Object_keys o ↔ is_Some (o !! k).
Proof.
  unfold Object_keys. rewrite list_elem_of_fmap. split.
  - intros [[k' v] [-> Hin]]. apply elem_of_map_to_list in Hin. eauto.
  - intros [v Hv]. exists (k, v). split; [reflexivity |].
    apply elem_of_map_to_list. exact Hv.
Qed.

Lemma lookup_delegatedOf this_props k :
  k ≠ "style" →
  delegatedOf this_props !! k
  = if decide (k ∈ propTypes.*1) then None else this_props !! k.
Proof.
  intros Hk. unfold delegatedOf.
  rewrite lookup_insert_ne by congruence. apply lookup_omit.
Qed.

Lemma lookup_delegatedOf_style this_props :
  delegatedOf this_props !! "style"
  = Some (VObj (ownProperties (get this_props "style")
                ∪ {["position" := VStr "relative"]})).
Proof.
  unfold delegatedOf. rewrite lookup_insert_eq. unfold get at 1.
  rewrite lookup_omit. reflexivity.
Qed.

Lemma lookup_outputOf this_props children k :
  k ≠ "delegated" →
  outputOf this_props children !! k
  = if decide (is_Some (delegatedOf this_props !! k)) then None
    else workingOf this_props children !! k.
Proof.
  intros Hk. unfold outputOf.
  rewrite lookup_insert_ne by congruence. rewrite lookup_omit.
  destruct (decide (k ∈ Object_keys _)) as [Hin | Hout];
    destruct (decide (is_Some _)) as [Hsome | Hnone]; try reflexivity.
  - exfalso. apply Hnone, elem_of_Object_keys, Hin.
  - exfalso. apply Hout, elem_of_Object_keys, Hsome.
Qed.

Lemma lookup_outputOf_delegated this_props children :
  outputOf this_props children !! "delegated"
  = Some (VObj (delegatedOf this_props)).
Proof. unfold outputOf. apply lookup_insert_eq. Qed.

(** A recognized field is never delegated, so it stays at the top level. *)
Lemma lookup_outputOf_primary this_props children k :
  k ∈ propTypes.*1 →
  outputOf this_props children !! k = workingOf this_props children !! k.
Proof.
  intros Hk.
  assert (k ≠ "delegated" ∧ k ≠ "style") as [Hd Hs].
  { split; intros ->; revert Hk; by_table. }
  rewrite lookup_outputOf by exact Hd.
  rewrite lookup_delegatedOf by exact Hs.
  destruct (decide (k ∈ propTypes.*1)); [| contradiction].
  destruct (decide (is_Some None)) as [[? [=]] |]. reflexivity.
Qed.

Lemma lookup_timedOf_timing props children prop :
  prop ∈ timingPropNames →
  timedOf props children !! prop = Some (timingValue prop (get props prop)).
Proof.
  unfold timedOf, timingPropNames. simpl foldl.
  rewrite !elem_of_cons, elem_of_nil.
  intros [-> | [-> | [-> | [-> | []]]]]; simplify_map_eq; reflexivity.
Qed.

Lemma lookup_timedOf_other props children k :
  k ∉ timingPropNames →
  timedOf props children !! k = (<["children" := VArr children]> props) !! k.
Proof.
  unfold timedOf, timingPropNames. simpl foldl.
  rewrite !not_elem_of_cons. intros (? & ? & ? & ? & _).
  rewrite !lookup_insert_ne by congruence. reflexivity.
Qed.

Lemma lookup_workingOf_timing props children prop :
  prop ∈ timingPropNames →
  workingOf props children !! prop
  = Some (timingValue prop (get props prop)).
Proof.
  intros Hprop. rewrite <- (lookup_timedOf_timing props children prop Hprop).
  assert (prop ≠ "enterClassName" ∧ prop ≠ "leaveClassName"
          ∧ prop ≠ "disableAnimations" ∧ prop ≠ "disableAllAnimations")
    as (? & ? & ? & ?).
  { repeat split; intros ->; revert Hprop; by_table. }
  unfold workingOf. cbv zeta.
  destruct (negb _); rewrite !lookup_insert_ne by congruence; reflexivity.
Qed.

(** ** Reading the console *)

Lemma filter_namesField_timingDiagnostics prop name rawValue :
  List.filter (namesField prop) (timingDiagnostics name rawValue)
  = if String.eqb name prop then timingDiagnostics name rawValue else [].
Proof.
  unfold timingDiagnostics.
  destruct (isNaN _); simpl; destruct (String.eqb name prop); reflexivity.
Qed.

Lemma filter_namesField_consoleOf this_props children prop :
  prop ∈ timingPropNames →
  List.filter (namesField prop) (consoleOf this_props children)
  = timingDiagnostics prop (get this_props prop).
Proof.
  intros Hprop. unfold consoleOf, timingPropNames in *. simpl concat.
  rewrite !List.filter_app, !filter_namesField_timingDiagnostics.
  replace (List.filter (namesField prop)
             (if forallb accepted children then []
              else [ConsoleWarn statelessFunctionalComponentSupplied]))
    with (@nil Diagnostic) by (destruct (forallb _ _); reflexivity).
  replace (List.filter (namesField prop)
             (if negb (String.eqb (typeof (get this_props "disableAnimations"))
                         "undefined")
              then [ConsoleWarn deprecatedDisableAnimations] else []))
    with (@nil Diagnostic) by (destruct (negb _); reflexivity).
  revert Hprop. rewrite !elem_of_cons, elem_of_nil.
  intros [-> | [-> | [-> | [-> | []]]]]; simpl;
    rewrite ?app_nil_r; reflexivity.
Qed.

Lemma filter_isDeprecation_consoleOf this_props children :
  List.filter isDeprecation (consoleOf this_props children)
  = if negb (String.eqb (typeof (get this_props "disableAnimations"))
               "undefined")
    then [ConsoleWarn deprecatedDisableAnimations] else [].
Proof.
  unfold consoleOf, timingPropNames, timingDiagnostics. simpl concat.
  rewrite !List.filter_app.
  destruct (forallb _ _), (negb _); simpl;
    repeat (destruct (isNaN _); simpl); reflexivity.
Qed.

Lemma filter_isStatelessWarning_consoleOf this_props children :
  List.filter isStatelessWarning (consoleOf this_props children)
  = if forallb accepted children then []
    else [ConsoleWarn statelessFunctionalComponentSupplied].
Proof.
  unfold consoleOf, timingPropNames, timingDiagnostics. simpl concat.
  rewrite !List.filter_app.
  destruct (forallb _ _), (negb _); simpl;
    repeat (destruct (isNaN _); simpl); reflexivity.
Qed.

(** ** Timing fields *)

Lemma defaultProps_timing prop :
  prop ∈ timingPropNames →
  get defaultProps prop
  = VNum (ofZ (if String.eqb prop "duration" then 350 else 0)).
Proof.
  unfold timingPropNames. rewrite !elem_of_cons, elem_of_nil.
  intros [-> | [-> | [-> | [-> | []]]]]; reflexivity.
Qed.

(** ** Rounding an integer to binary64 *)

Lemma Zpos_iter_xO m k :
  Z.pos (Pos.iter xO m k) = (Z.pos m * 2 ^ Z.pos k)%Z.
Proof.
  induction k as [| k IH] using Pos.peano_ind.
  - simpl. lia.
  - rewrite Pos.iter_succ, Pos2Z.inj_xO, IH, Pos2Z.inj_succ, Z.pow_succ_r
      by lia.
    ring.
Qed.

Lemma digits2_pos_iter_xO m k :
  Z.pos (digits2_pos (Pos.iter xO m k))
  = (Z.pos (digits2_pos m) + Z.pos k)%Z.
Proof.
  induction k as [| k IH] using Pos.peano_ind.
  - simpl. lia.
  - rewrite Pos.iter_succ. simpl digits2_pos. rewrite Pos2Z.inj_succ, IH. lia.
Qed.

Lemma shr_exponent mrs e n : (e <= snd (shr mrs e n))%Z.
Proof. destruct n; simpl; lia. Qed.

(** Rounding only ever shifts the mantissa right. *)
Lemma binary_round_aux_exponent sx mx ex lx s m e :
  binary_round_aux prec emax sx mx ex lx = S754_finite s m e → (ex <= e)%Z.
Proof.
  unfold binary_round_aux, shr_fexp.
  pose proof (shr_exponent (shr_record_of_loc mx lx) ex
                (fexp prec emax (Zdigits2 mx + ex) - ex)) as H1.
  destruct (shr _ ex _) as [mrs' e'].
  pose proof (shr_exponent
                (shr_record_of_loc
                   (round_nearest_even (shr_m mrs') (loc_of_shr_record mrs'))
                   loc_Exact) e'
                (fexp prec emax
                   (Zdigits2 (round_nearest_even (shr_m mrs')
                                (loc_of_shr_record mrs')) + e') - e')) as H2.
  destruct (shr _ e' _) as [mrs'' e''].
  simpl in *. destruct (shr_m mrs''); try discriminate.
  destruct (e'' <=? emax - prec)%Z; intros [= <- <- <-]. lia.
Qed.

(** A mantissa of fewer than 53 bits is aligned exactly; a longer one is
    rounded to a multiple of a positive power of two. *)
Lemma binary_round_integer sx mx s m e :
  binary_round prec emax sx mx 0 = S754_finite s m e →
  isInteger (S754_finite s m e) = true.
Proof.
  unfold binary_round, shl_align.
  pose proof (Pos2Z.is_pos (digits2_pos mx)) as Hd.
  assert (Hfexp : fexp prec emax (Z.pos (digits2_pos mx) + 0)
                  = (Z.pos (digits2_pos mx) - 53)%Z).
  { unfold fexp, emin, prec, emax. lia. }
  rewrite Hfexp.
  destruct (Z.pos (digits2_pos mx) - 53 - 0)%Z as [| d | k] eqn:Hshift.
  - intros H. apply binary_round_aux_exponent in H. simpl.
    apply orb_true_iff. left. lia.
  - intros H. apply binary_round_aux_exponent in H. simpl.
    apply orb_true_iff. left. lia.
  - unfold binary_round_aux, shr_fexp. simpl Zdigits2.
    rewrite digits2_pos_iter_xO.
    assert (Hn : (fexp prec emax
                    (Z.pos (digits2_pos mx) + Z.pos k
                     + (Z.pos (digits2_pos mx) - 53))
                  - (Z.pos (digits2_pos mx) - 53) = 0)%Z).
    { unfold fexp, emin, prec, emax. lia. }
    rewrite Hn. simpl. rewrite digits2_pos_iter_xO, Hn. simpl.
    destruct (_ <=? _)%Z; intros [= <- <- <-].
    simpl. apply orb_true_iff. right.
    rewrite Zpos_iter_xO.
    replace (- (Z.pos (digits2_pos mx) - 53))%Z with (Z.pos k) by lia.
    rewrite Z.mod_mul by lia. reflexivity.
Qed.

Lemma binary_normalize_integer z sz s m e :
  binary_normalize prec emax z 0 sz = S754_finite s m e →
  isInteger (S754_finite s m e) = true.
Proof.
  destruct z; simpl binary_normalize; [discriminate | |];
    apply binary_round_integer.
Qed.

(** [parseInt] yields NaN, an infinity (digits beyond the binary64 range) or
    an integer. *)
Lemma parseInt_integer s radix :
  is_nan (parseInt s radix) = true
  ∨ (∃ sign, parseInt s radix = S754_infinity sign)
  ∨ isInteger (parseInt s radix) = true.
Proof.
  unfold parseInt.
  destruct (stripSign (trimStart s)) as [negative str].
  destruct (_ || _)%bool; [| left; reflexivity].
  destruct (if (_ || _)%bool then _ else _) as [R digits].
  destruct (parseDigits R digits None) as [mathInt |]; [| left; reflexivity].
  destruct (binary_normalize _ _ _ _ _) as [sz | si | | sf m e] eqn:Hn.
  - right. right. reflexivity.
  - right. left. eauto.
  - left. reflexivity.
  - right. right. eapply binary_normalize_integer. exact Hn.
Qed.

Lemma typeof_undefined v :
  String.eqb (typeof v) "undefined" = true ↔ v = VUndefined.
Proof. destruct v; simpl; split; intros H; try discriminate; reflexivity. Qed.

Lemma typeof_string v :
  typeof v = "string" ↔ ∃ s, v = VStr s.
Proof.
  destruct v; simpl; split; try discriminate; eauto; intros [? [=]].
Qed.

(** C2, as amended. Each of the four timing fields of the result is never a
    string and never NaN. It is an integer, or an infinity when the digits
    exceed the binary64 range, if the prop was a string; it is the field's
    default, an integer, if the prop was not a string and [isNaN] holds of it
    (absent, [undefined], NaN); and it is the prop itself, unchanged, if the
    prop was not a string and [isNaN] does not hold of it, so that it is an
    integer only when the caller passed one. *)
Theorem timing_fields_shape this_props children prop :
  prop ∈ timingPropNames →
  React_Children_toArray (get this_props "children") = Some children →
  ∃ out console v,
    render this_props = Some (out, console)
    ∧ out !! prop = Some v
    ∧ typeof v ≠ "string"
    ∧ v ≠ VNum S754_nan
    ∧ let rawValue := get this_props prop in
      (∀ s, rawValue = VStr s →
            ∃ n, v = VNum n
                 ∧ (isInteger n = true ∨ ∃ sign, n = S754_infinity sign))
      ∧ (typeof rawValue ≠ "string" → isNaN rawValue = true →
         v = get defaultProps prop ∧ ∃ n, v = VNum n ∧ isInteger n = true)
      ∧ (typeof rawValue ≠ "string" → isNaN rawValue = false →
         v = rawValue).
Proof.
  intros Hprop Hchildren.
  exists (outputOf this_props children), (consoleOf this_props children),
    (timingValue prop (get this_props prop)).
  split; [apply render_eq; exact Hchildren |].
  pose proof (timingPropNames_primary prop Hprop) as Hprimary.
  split.
  { rewrite lookup_outputOf_primary by exact Hprimary.
    apply lookup_workingOf_timing. exact Hprop. }
  assert (Hdefault : ∃ n, get defaultProps prop = VNum n
                          ∧ isInteger n = true).
  { rewrite (defaultProps_timing prop Hprop).
    destruct (String.eqb prop "duration"); eexists; split; reflexivity. }
  destruct Hdefault as (nd & Hnd & Hint).
  unfold timingValue. cbv zeta.
  assert (Hcoerce : ∀ v, typeof v ≠ "string" → coerceTiming v = v).
  { intros v Hv. destruct v; try reflexivity. exfalso. apply Hv. reflexivity. }
  repeat split.
  - destruct (isNaN _); [rewrite Hnd; discriminate |].
    destruct (get this_props prop); discriminate.
  - destruct (isNaN _) eqn:Hnan.
    + rewrite Hnd. intros [= ->]. discriminate.
    + intros Heq. rewrite Heq in Hnan. discriminate.
  - intros s ->. simpl coerceTiming.
    destruct (isNaN _) eqn:Hnan; [rewrite Hnd; eauto |].
    eexists. split; [reflexivity |].
    destruct (parseInt_integer s 10) as [Hn | [Hi | Hi]]; eauto.
    unfold isNaN in Hnan. simpl in Hnan. congruence.
  - rewrite Hcoerce by assumption.
    match goal with H : isNaN _ = true |- _ => rewrite H end. reflexivity.
  - rewrite Hcoerce by assumption.
    match goal with H : isNaN _ = true |- _ => rewrite H end. eauto.
  - intros Hty Hnan. rewrite Hcoerce, Hnan by assumption. reflexivity.
Qed.

(** ** The fields of [workingProps] *)

Lemma lookup_workingOf_animation props children prop :
  prop ∈ ["enterClassName"; "leaveClassName"] →
  workingOf props children !! prop
  = Some (convertAnimationProp (get props prop)).
Proof.
  rewrite !elem_of_cons, elem_of_nil. unfold workingOf, timedOf, get.
  simpl foldl. cbv zeta.
  intros [-> | [-> | []]]; destruct (negb _); simplify_map_eq; reflexivity.
Qed.

Lemma lookup_workingOf_children props children :
  workingOf props children !! "children" = Some (VArr children).
Proof.
  unfold workingOf, timedOf. simpl foldl. cbv zeta.
  destruct (negb _); simplify_map_eq; reflexivity.
Qed.

Lemma lookup_workingOf_disableAllAnimations props children :
  workingOf props children !! "disableAllAnimations"
  = if String.eqb (typeof (get props "disableAnimations")) "undefined"
    then props !! "disableAllAnimations"
    else Some (get props "disableAnimations").
Proof.
  unfold workingOf, timedOf. simpl foldl. cbv zeta.
  destruct (String.eqb _ _); simpl negb; simplify_map_eq; reflexivity.
Qed.

(** A key the converter never writes is in [workingProps] only if the
    caller passed it. *)
Lemma lookup_workingOf_other props children k :
  k ∉ propTypes.*1 → k ≠ "disableAnimations" →
  workingOf props children !! k = props !! k.
Proof.
  intros Hk Hlegacy.
  assert (Forall (λ name, k ≠ name) propTypes.*1) as Hne.
  { apply Forall_forall. intros name Hname ->. contradiction. }
  simpl in Hne. repeat (apply Forall_cons in Hne as [? Hne]).
  unfold workingOf, timedOf. simpl foldl. cbv zeta.
  destruct (negb _); rewrite !lookup_insert_ne by congruence; reflexivity.
Qed.

Lemma lookup_outputOf_legacy this_props children :
  outputOf this_props children !! "disableAnimations" = None.
Proof.
  rewrite lookup_outputOf by discriminate.
  rewrite lookup_delegatedOf by discriminate.
  destruct (decide ("disableAnimations" ∈ propTypes.*1)) as [Hin | _].
  { exfalso. revert Hin. by_table. }
  destruct (decide (is_Some (this_props !! "disableAnimations")))
    as [_ | Hnone]; [reflexivity |].
  unfold workingOf, timedOf, get. simpl foldl. cbv zeta.
  apply eq_None_not_Some in Hnone. rewrite Hnone. simpl.
  rewrite !lookup_insert_ne by discriminate. exact Hnone.
Qed.

(** A key outside the schema is at the top level of the result only if it
    is [delegated], the name of the bag itself. *)
Lemma lookup_outputOf_other this_props children k :
  k ∉ propTypes.*1 → k ≠ "delegated" →
  outputOf this_props children !! k = None.
Proof.
  intros Hk Hd.
  destruct (decide (k = "disableAnimations")) as [-> | Hlegacy];
    [apply lookup_outputOf_legacy |].
  rewrite lookup_outputOf by exact Hd.
  destruct (decide (is_Some (delegatedOf this_props !! k)))
    as [_ | Hnone]; [reflexivity |].
  destruct (decide (k = "style")) as [-> | Hstyle].
  { exfalso. apply Hnone. rewrite lookup_delegatedOf_style. eauto. }
  rewrite lookup_delegatedOf in Hnone by exact Hstyle.
  destruct (decide (k ∈ propTypes.*1)); [contradiction |].
  rewrite lookup_workingOf_other by assumption.
  apply eq_None_not_Some. exact Hnone.
Qed.

(** ** The deprecated field *)

(** C3, as amended. The result never has a [disableAnimations] field. If
    the props hold [disableAnimations] with a value other than [undefined]
    ([false] and [null] included), the console receives exactly one
    deprecation warning and [disableAllAnimations] of the result is that
    value, whatever the props held there. If [disableAnimations] is absent,
    or present with the value [undefined], the console receives no
    deprecation warning and [disableAllAnimations] is as the props have
    it. *)
Theorem deprecation_shim this_props children :
  React_Children_toArray (get this_props "children") = Some children →
  ∃ out console,
    render this_props = Some (out, console)
    ∧ out !! "disableAnimations" = None
    ∧ (get this_props "disableAnimations" ≠ VUndefined →
       List.filter isDeprecation console
       = [ConsoleWarn deprecatedDisableAnimations]
       ∧ out !! "disableAllAnimations"
         = Some (get this_props "disableAnimations"))
    ∧ (get this_props "disableAnimations" = VUndefined →
       List.filter isDeprecation console = []
       ∧ out !! "disableAllAnimations" = this_props !! "disableAllAnimations").
Proof.
  intros Hchildren.
  exists (outputOf this_props children), (consoleOf this_props children).
  split; [apply render_eq; exact Hchildren |].
  split; [apply lookup_outputOf_legacy |].
  rewrite filter_isDeprecation_consoleOf.
  rewrite lookup_outputOf_primary by by_table.
  rewrite lookup_workingOf_disableAllAnimations.
  destruct (String.eqb (typeof (get this_props "disableAnimations"))
              "undefined") eqn:Hundef; simpl negb.
  - apply typeof_undefined in Hundef. split; [contradiction |].
    intros _. split; reflexivity.
  - split; [intros _; split; reflexivity |].
    intros Heq. apply typeof_undefined in Heq. congruence.
Qed.

(** ** Delegated props *)

(** C4, as amended. The result has a [delegated] field that is an object.
    Its [style] is the spread of the caller's [style] over
    [{position: 'relative'}]: [position] is ['relative'] unless the caller's
    style has a [position] of its own, and every other key is the caller's.
    A prop outside the schema, other than [style], is in [delegated] with
    the caller's value; and no key outside the schema is at the top level of
    the result, save [delegated] itself, which names the bag even when the
    caller passed a prop of that name. *)
Theorem delegated_style this_props children :
  React_Children_toArray (get this_props "children") = Some children →
  ∃ out console d merged,
    render this_props = Some (out, console)
    ∧ out !! "delegated" = Some (VObj d)
    ∧ d !! "style" = Some (VObj merged)
    ∧ (let style := ownProperties (get this_props "style") in
       merged = style ∪ {["position" := VStr "relative"]}
       ∧ merged !! "position"
         = Some (default (VStr "relative") (style !! "position"))
       ∧ ∀ k, k ≠ "position" → merged !! k = style !! k)
    ∧ (∀ k, k ∉ propTypes.*1 → k ≠ "style" → d !! k = this_props !! k)
    ∧ (∀ k, k ∉ propTypes.*1 → k ≠ "delegated" → out !! k = None).
Proof.
  intros Hchildren.
  exists (outputOf this_props children), (consoleOf this_props children),
    (delegatedOf this_props),
    (ownProperties (get this_props "style")
     ∪ {["position" := VStr "relative"]}).
  split; [apply render_eq; exact Hchildren |].
  split; [apply lookup_outputOf_delegated |].
  split; [apply lookup_delegatedOf_style |].
  split; [| split].
  - cbv zeta. split; [reflexivity |]. split.
    + rewrite lookup_union.
      destruct (ownProperties _ !! "position"); reflexivity.
    + intros k Hk. rewrite lookup_union, lookup_singleton_ne by congruence.
      destruct (ownProperties _ !! k); reflexivity.
  - intros k Hk Hstyle. rewrite lookup_delegatedOf by exact Hstyle.
    destruct (decide (k ∈ propTypes.*1)); [contradiction | reflexivity].
  - intros k Hk Hd. apply lookup_outputOf_other; assumption.
Qed.

(** C5, as amended. No key of the [delegated] object is a key of the
    result's top level, with one exception: when the caller passes a prop
    named [delegated], that prop is inside the bag and the bag is under the
    same name at the top level. *)
Theorem delegated_disjoint this_props children :
  React_Children_toArray (get this_props "children") = Some children →
  ∃ out console d,
    render this_props = Some (out, console)
    ∧ out !! "delegated" = Some (VObj d)
    ∧ dom d ∩ dom out ⊆ {["delegated"]}
    ∧ (∀ k, is_Some (d !! k) → k ≠ "delegated" → out !! k = None)
    ∧ d !! "delegated" = this_props !! "delegated".
Proof.
  intros Hchildren.
  exists (outputOf this_props children), (consoleOf this_props children),
    (delegatedOf this_props).
  split; [apply render_eq; exact Hchildren |].
  split; [apply lookup_outputOf_delegated |].
  assert (Hdisjoint : ∀ k, is_Some (delegatedOf this_props !! k) →
                        k ≠ "delegated" →
                        outputOf this_props children !! k = None).
  { intros k Hin Hk. rewrite lookup_outputOf by exact Hk.
    destruct (decide (is_Some _)); [reflexivity | contradiction]. }
  split; [| split; [exact Hdisjoint |]].
  - intros k. rewrite elem_of_intersection, !elem_of_dom, elem_of_singleton.
    intros [Hd Hout]. destruct (decide (k = "delegated")) as [| Hk]; [done |].
    rewrite (Hdisjoint k Hd Hk) in Hout. destruct Hout as [? [=]].
  - rewrite lookup_delegatedOf by discriminate.
    destruct (decide ("delegated" ∈ propTypes.*1)) as [Hin | _];
      [| reflexivity].
    exfalso. revert Hin. by_table.
Qed.

(** C10. When the props hold the legacy field [disableAnimations], with
    any value, the [delegated] object of the result holds
    [disableAnimations] with that same value, because the name is not a key
    of [propTypes]; the top level of the result does not have the field. *)
Theorem legacy_field_delegated this_props children v :
  this_props !! "disableAnimations" = Some v →
  React_Children_toArray (get this_props "children") = Some children →
  ∃ out console d,
    render this_props = Some (out, console)
    ∧ ("disableAnimations" ∉ propTypes.*1)
    ∧ out !! "delegated" = Some (VObj d)
    ∧ d !! "disableAnimations" = Some v
    ∧ out !! "disableAnimations" = None.
Proof.
  intros Hlegacy Hchildren.
  exists (outputOf this_props children), (consoleOf this_props children),
    (delegatedOf this_props).
  assert (Hschema : "disableAnimations" ∉ propTypes.*1) by by_table.
  split; [apply render_eq; exact Hchildren |].
  split; [exact Hschema |].
  split; [apply lookup_outputOf_delegated |].
  split; [| apply lookup_outputOf_legacy].
  rewrite lookup_delegatedOf by discriminate.
  destruct (decide ("disableAnimations" ∈ propTypes.*1));
    [contradiction | exact Hlegacy].
Qed.

(** ** Animation props *)

(** C6. For [enterClassName] and for [leaveClassName], each from its own
    prop: a prop that is a function is in the result as it was passed, the
    same function; a prop that is not a function is replaced by a function
    that, called with any arguments, returns that prop's value. *)
Theorem animation_callable this_props children prop :
  prop ∈ ["enterClassName"; "leaveClassName"] →
  React_Children_toArray (get this_props "children") = Some children →
  ∃ out console f,
    render this_props = Some (out, console)
    ∧ out !! prop = Some f
    ∧ typeof f = "function"
    ∧ let animation := get this_props prop in
      (typeof animation = "function" → f = animation)
      ∧ (typeof animation ≠ "function" →
         ∀ args, callArrow f args = Some animation).
Proof.
  intros Hprop Hchildren.
  exists (outputOf this_props children), (consoleOf this_props children),
    (convertAnimationProp (get this_props prop)).
  split; [apply render_eq; exact Hchildren |].
  split.
  { rewrite lookup_outputOf_primary by (apply animationProps_primary, Hprop).
    apply lookup_workingOf_animation. exact Hprop. }
  unfold convertAnimationProp. cbv zeta.
  destruct (String.eqb (typeof (get this_props prop)) "function") eqn:Hfun.
  - apply String.eqb_eq in Hfun. split; [exact Hfun |].
    split; [reflexivity | contradiction].
  - apply String.eqb_neq in Hfun. split; [reflexivity |].
    split; [contradiction | reflexivity].
Qed.

(** ** Children *)

(** C7, as amended. [convertProps] throws when the children hold a plain
    object, which React refuses. In every other case it succeeds and the
    result's [children] is an array, never a bare child and never absent:
    the strings, numbers and elements of the children in declared order and
    nothing else, each element cloned under the key React gives it. A single
    element gives an array of length 1 with that element under the key
    ["." + getComponentKey(element, 0)]; [undefined] gives the empty
    array. *)
Theorem children_canonical this_props :
  (isNode (get this_props "children") = false → render this_props = None)
  ∧ (isNode (get this_props "children") = true →
     ∃ out console l,
       render this_props = Some (out, console)
       ∧ out !! "children" = Some (VArr l)
       ∧ Forall (λ v, canonicalChild v = true) l
       ∧ withoutKey <$> l = withoutKey <$> flatten (get this_props "children")
       ∧ (∀ type key ref props,
            get this_props "children" = VElem type key ref props →
            l = [VElem type
                   (Some (SEPARATOR
                          +:+ getComponentKey (VElem type key ref props) 0))
                   ref props])
       ∧ (get this_props "children" = VUndefined → l = [])).
Proof.
  split.
  - intros Hnode. apply render_throws.
    apply eq_None_not_Some. intros Hsome.
    apply (traverseAllChildren_is_Some _ "") in Hsome.
    rewrite Hnode in Hsome. discriminate.
  - intros Hnode.
    apply (traverseAllChildren_is_Some _ "") in Hnode as [l Hl].
    exists (outputOf this_props l), (consoleOf this_props l), l.
    split; [apply render_eq; exact Hl |].
    split.
    { rewrite lookup_outputOf_primary by by_table.
      apply lookup_workingOf_children. }
    split; [exact (toArray_canonical _ _ Hl) |].
    split; [exact (traverseAllChildren_flatten _ _ _ Hl) |].
    split.
    + intros type key ref props Heq. rewrite Heq in Hl.
      injection Hl as <-. reflexivity.
    + intros Heq. rewrite Heq in Hl. injection Hl as <-. reflexivity.
Qed.

(** The capability check warns exactly when some child is stateless and
    has a key. *)
Lemma forallb_accepted l :
  forallb accepted l
  = negb (existsb (λ child, isElementAnSFC child && keyDefined child) l).
Proof.
  induction l as [| child l IH]; simpl; [reflexivity |].
  rewrite IH. unfold accepted.
  destruct (isElementAnSFC child), (keyDefined child); reflexivity.
Qed.

(** ** Converting a result again *)

Lemma convertAnimationProp_function animation :
  typeof (convertAnimationProp animation) = "function".
Proof.
  unfold convertAnimationProp.
  destruct (String.eqb (typeof animation) "function") eqn:Hfun;
    [apply String.eqb_eq; exact Hfun | reflexivity].
Qed.

Lemma convertAnimationProp_idem animation :
  convertAnimationProp (convertAnimationProp animation)
  = convertAnimationProp animation.
Proof.
  unfold convertAnimationProp at 1.
  rewrite convertAnimationProp_function. reflexivity.
Qed.

(** A stored timing value is not a string and passes the [isNaN] test. *)
Lemma timingValue_settled prop rawValue :
  prop ∈ timingPropNames →
  coerceTiming (timingValue prop rawValue) = timingValue prop rawValue
  ∧ isNaN (timingValue prop rawValue) = false.
Proof.
  intros Hprop. unfold timingValue.
  destruct (isNaN (coerceTiming rawValue)) eqn:Hnan.
  - rewrite (defaultProps_timing prop Hprop).
    destruct (String.eqb prop "duration"); split; reflexivity.
  - split; [| exact Hnan]. destruct rawValue; reflexivity.
Qed.

Lemma timingValue_idem prop rawValue :
  prop ∈ timingPropNames →
  timingValue prop (timingValue prop rawValue) = timingValue prop rawValue.
Proof.
  intros Hprop.
  destruct (timingValue_settled prop rawValue Hprop) as [Hcoerce Hnan].
  unfold timingValue at 1. rewrite Hcoerce, Hnan. reflexivity.
Qed.

Lemma omit_id (o : Obj) attrs :
  (∀ k, k ∈ attrs → o !! k = None) → omit o attrs = o.
Proof.
  intros Hattrs. apply map_eq. intros k. rewrite lookup_omit.
  destruct (decide (k ∈ attrs)); [symmetry; eauto | reflexivity].
Qed.

Lemma omit_empty (o : Obj) attrs :
  (∀ k, k ∉ attrs → o !! k = None) → omit o attrs = ∅.
Proof.
  intros Hattrs. apply map_eq. intros k. rewrite lookup_omit, lookup_empty.
  destruct (decide (k ∈ attrs)); [reflexivity | eauto].
Qed.

(** The top level of a result, without the bag: only keys of the schema,
    each as [workingProps] has it. *)
Lemma lookup_result_other this_props children k :
  k ∉ propTypes.*1 →
  delete "delegated" (outputOf this_props children) !! k = None.
Proof.
  intros Hk. destruct (decide (k = "delegated")) as [-> | Hd].
  - apply lookup_delete_eq.
  - rewrite lookup_delete_ne by congruence.
    apply lookup_outputOf_other; assumption.
Qed.

Lemma lookup_result_primary this_props children k :
  k ∈ propTypes.*1 →
  delete "delegated" (outputOf this_props children) !! k
  = workingOf this_props children !! k.
Proof.
  intros Hk. rewrite lookup_delete_ne.
  - apply lookup_outputOf_primary. exact Hk.
  - intros <-. revert Hk. by_table.
Qed.

(** C9, as amended. Converting again the top level of a result, without
    its [delegated] bag, succeeds and gives back the same top-level fields,
    timing values and animation functions included, with one change: React
    gives every element of [children] a new key, its old key escaped and
    prefixed once more. The second conversion writes no timing and no
    deprecation diagnostic, and its bag is [{style: {position:
    'relative'}}]. When re-keying leaves the children as they are (no
    element among them) the top-level fields are exactly the same. *)
Theorem renormalize this_props children :
  React_Children_toArray (get this_props "children") = Some children →
  ∃ out console out' console',
    render this_props = Some (out, console)
    ∧ render (delete "delegated" out) = Some (out', console')
    ∧ delete "delegated" out'
      = <["children" := VArr (rekey <$> children)]> (delete "delegated" out)
    ∧ out' !! "delegated"
      = Some (VObj {["style" := VObj {["position" := VStr "relative"]}]})
    ∧ List.filter (λ d, negb (isStatelessWarning d)) console' = []
    ∧ (rekey <$> children = children →
       delete "delegated" out' = delete "delegated" out).
Proof.
  intros Hchildren.
  pose proof (toArray_canonical _ _ Hchildren) as Hcanonical.
  set (out := outputOf this_props children).
  set (props2 := delete "delegated" out).
  set (children2 := rekey <$> children).
  assert (Hother : ∀ k, k ∉ propTypes.*1 → props2 !! k = None)
    by (intros k; apply lookup_result_other).
  assert (Hprimary : ∀ k, k ∈ propTypes.*1 →
                       props2 !! k = workingOf this_props children !! k)
    by (intros k; apply lookup_result_primary).
  assert (Hkids : props2 !! "children" = Some (VArr children)).
  { rewrite Hprimary by by_table. apply lookup_workingOf_children. }
  assert (Htiming : ∀ prop, prop ∈ timingPropNames →
            props2 !! prop
            = Some (timingValue prop (get this_props prop))).
  { intros prop Hprop.
    rewrite Hprimary by (apply timingPropNames_primary, Hprop).
    apply lookup_workingOf_timing. exact Hprop. }
  assert (Hanimation : ∀ prop, prop ∈ ["enterClassName"; "leaveClassName"] →
            props2 !! prop
            = Some (convertAnimationProp (get this_props prop))).
  { intros prop Hprop.
    rewrite Hprimary by (apply animationProps_primary, Hprop).
    apply lookup_workingOf_animation. exact Hprop. }
  assert (Hlegacy : get props2 "disableAnimations" = VUndefined).
  { unfold get. rewrite Hother; [reflexivity |].
    by_table. }
  assert (Hchildren2 :
            React_Children_toArray (get props2 "children") = Some children2).
  { unfold get. rewrite Hkids. simpl.
    apply toArray_canonical_input. exact Hcanonical. }
  (* The working props of the second conversion. *)
  set (m := <["children" := VArr children2]> props2).
  assert (Hm : ∀ k, k ≠ "children" → m !! k = props2 !! k).
  { intros k Hk. unfold m. apply lookup_insert_ne. congruence. }
  assert (Htimed : ∀ prop, prop ∈ timingPropNames →
            <[prop := timingValue prop (get props2 prop)]> m = m).
  { intros prop Hprop. apply insert_id. rewrite Hm.
    - unfold get. rewrite (Htiming prop Hprop). simpl.
      rewrite timingValue_idem by exact Hprop. reflexivity.
    - intros ->. revert Hprop. by_table. }
  assert (Hanimated : ∀ prop, prop ∈ ["enterClassName"; "leaveClassName"] →
            <[prop := convertAnimationProp (get m prop)]> m = m).
  { intros prop Hprop. apply insert_id. unfold get at 1. rewrite Hm.
    - rewrite (Hanimation prop Hprop). simpl.
      rewrite convertAnimationProp_idem. reflexivity.
    - intros ->. revert Hprop. by_table. }
  assert (Hworking : workingOf props2 children2 = m).
  { unfold workingOf, timedOf. rewrite Hlegacy. simpl foldl. cbv zeta.
    simpl negb. cbv iota. fold m.
    rewrite (Htimed "duration") by by_table.
    rewrite (Htimed "delay") by by_table.
    rewrite (Htimed "staggerDurationBy") by by_table.
    rewrite (Htimed "staggerDelayBy") by by_table.
    rewrite (Hanimated "enterClassName") by by_table.
    rewrite (Hanimated "leaveClassName") by by_table.
    reflexivity. }
  assert (Hbag : delegatedOf props2
                 = {["style" := VObj {["position" := VStr "relative"]}]}).
  { unfold delegatedOf. rewrite (omit_empty props2) by exact Hother.
    unfold get. rewrite lookup_empty. simpl.
    rewrite (left_id_L ∅ (∪)). apply insert_empty. }
  assert (Hout2 : outputOf props2 children2
                  = <["delegated" := VObj (delegatedOf props2)]> m).
  { unfold outputOf. rewrite Hworking. f_equal. apply omit_id.
    intros k. rewrite elem_of_Object_keys, Hbag.
    intros [v Hv]. apply lookup_singleton_Some in Hv as [<- _].
    rewrite Hm by discriminate. apply Hother.
    by_table. }
  assert (Hdelete : delete "delegated" (outputOf props2 children2) = m).
  { rewrite Hout2. apply delete_insert_id. rewrite Hm by discriminate.
    apply Hother. by_table. }
  exists out, (consoleOf this_props children),
    (outputOf props2 children2), (consoleOf props2 children2).
  split; [apply render_eq; exact Hchildren |].
  split; [apply render_eq; exact Hchildren2 |].
  split; [exact Hdelete |].
  split; [rewrite lookup_outputOf_delegated, Hbag; reflexivity |].
  split.
  - unfold consoleOf, timingPropNames. cbn [concat map].
    unfold timingDiagnostics, get.
    rewrite (Htiming "duration"), (Htiming "delay"),
      (Htiming "staggerDurationBy"), (Htiming "staggerDelayBy") by by_table.
    simpl default.
    rewrite (proj1 (timingValue_settled "duration" _ ltac:(by_table))),
      (proj2 (timingValue_settled "duration" _ ltac:(by_table))),
      (proj1 (timingValue_settled "delay" _ ltac:(by_table))),
      (proj2 (timingValue_settled "delay" _ ltac:(by_table))),
      (proj1 (timingValue_settled "staggerDurationBy" _ ltac:(by_table))),
      (proj2 (timingValue_settled "staggerDurationBy" _ ltac:(by_table))),
      (proj1 (timingValue_settled "staggerDelayBy" _ ltac:(by_table))),
      (proj2 (timingValue_settled "staggerDelayBy" _ ltac:(by_table))).
    rewrite (Hother "disableAnimations")
      by by_table.
    simpl. destruct (forallb accepted children2); reflexivity.
  - intros Hsame. rewrite Hdelete. subst m children2. rewrite Hsame.
    apply insert_id. exact Hkids.
Qed.

(** * Further properties *)

(** ** [convertProps] in general *)

(** [convertProps(props)] for any argument and any console: the result of
    the steps, and the console extended by their diagnostics. *)
Lemma convertProps_eq this_props props children console :
  React_Children_toArray (get props "children") = Some children →
  convertProps this_props props console
  = Some (outputOfWith this_props props children,
          console ++ consoleOf props children).
Proof.
  intros Hchildren.
  pose proof (toArray_canonical _ _ Hchildren) as Hcanonical.
  unfold convertProps. rewrite Hchildren.
  erewrite bind_Some by reflexivity. cbv beta zeta.
  erewrite bind_Some by (apply every_accepted; exact Hcanonical).
  unfold consoleOf, outputOfWith, workingOf.
  assert (Hread : ∀ prop, prop ∈ timingPropNames →
            get (<["children" := VArr children]> props) prop
            = get props prop).
  { intros prop Hin. unfold get. rewrite lookup_insert_ne; [reflexivity |].
    intros <-. revert Hin. by_table. }
  destruct (forallb accepted children); cbv beta iota zeta.
  all: erewrite bind_Some by reflexivity.
  all: erewrite bind_Some
         by (apply forEach_timing; [apply NoDup_timingPropNames | exact Hread]).
  all: fold (timedOf props children).
  all: destruct (negb (String.eqb (typeof (get props "disableAnimations"))
                         "undefined")).
  all: try (erewrite bind_Some by reflexivity).
  all: try (erewrite bind_Some by reflexivity).
  all: unfold mret, M_ret, delegatedOf;
    rewrite ?app_nil_r, ?app_nil_l, <- ?app_assoc.
  all: reflexivity.
Qed.

Lemma lookup_outputOfWith this_props props children k :
  k ≠ "delegated" →
  outputOfWith this_props props children !! k
  = if decide (is_Some (delegatedOf this_props !! k)) then None
    else workingOf props children !! k.
Proof.
  intros Hk. unfold outputOfWith.
  rewrite lookup_insert_ne by congruence. rewrite lookup_omit.
  destruct (decide (k ∈ Object_keys _)) as [Hin | Hout];
    destruct (decide (is_Some _)) as [Hsome | Hnone]; try reflexivity.
  - exfalso. apply Hnone, elem_of_Object_keys, Hin.
  - exfalso. apply Hout, elem_of_Object_keys, Hsome.
Qed.

Lemma isUndefined_typeof v :
  String.eqb (typeof v) "undefined" = isUndefined v.
Proof. destruct v; reflexivity. Qed.

(** A prop the converter does not assign is in [workingProps] as the caller
    passed it. *)
Lemma lookup_workingOf_unwritten props children k :
  k ∉ writtenProps →
  k ∉ ["disableAnimations"; "disableAllAnimations"] →
  workingOf props children !! k = props !! k.
Proof.
  unfold writtenProps, timingPropNames. simpl app.
  rewrite !not_elem_of_cons.
  intros (? & ? & ? & ? & ? & ? & ? & _) (? & ? & _).
  unfold workingOf, timedOf. simpl foldl. cbv zeta.
  destruct (negb _); rewrite !lookup_insert_ne by congruence; reflexivity.
Qed.

(** The bag is computed from the props of the component, whatever argument
    [convertProps] is given: a key outside the schema leaves the top level
    only if the component has it, and the argument's legacy field, when the
    component does not have it, stays at the top level as [undefined]. *)
Theorem delegation_reads_component_props this_props props children :
  React_Children_toArray (get props "children") = Some children →
  ∃ out console d,
    convertProps this_props props [] = Some (out, console)
    ∧ out !! "delegated" = Some (VObj d)
    ∧ d !! "style"
      = Some (VObj (ownProperties (get this_props "style")
                    ∪ {["position" := VStr "relative"]}))
    ∧ (∀ k, k ∉ propTypes.*1 → k ≠ "style" → d !! k = this_props !! k)
    ∧ (∀ k, k ∉ propTypes.*1 →
            k ∉ ["style"; "delegated"; "disableAnimations"] →
            (is_Some (this_props !! k) → out !! k = None)
            ∧ (this_props !! k = None → out !! k = props !! k))
    ∧ (this_props !! "disableAnimations" = None →
       get props "disableAnimations" ≠ VUndefined →
       out !! "disableAnimations" = Some VUndefined).
Proof.
  intros Hchildren.
  exists (outputOfWith this_props props children),
    ([] ++ consoleOf props children), (delegatedOf this_props).
  split; [apply convertProps_eq; exact Hchildren |].
  split; [apply lookup_insert_eq |].
  split; [apply lookup_delegatedOf_style |].
  split; [| split].
  - intros k Hk Hstyle. rewrite lookup_delegatedOf by exact Hstyle.
    destruct (decide (k ∈ propTypes.*1)); [contradiction | reflexivity].
  - intros k Hk Hnot. rewrite !not_elem_of_cons in Hnot.
    destruct Hnot as (Hstyle & Hd & Hlegacy & _).
    rewrite lookup_outputOfWith by exact Hd.
    rewrite lookup_delegatedOf by exact Hstyle.
    destruct (decide (k ∈ propTypes.*1)); [contradiction |].
    split.
    + intros Hsome.
      destruct (decide (is_Some (this_props !! k))); [reflexivity |].
      contradiction.
    + intros Hnone. rewrite Hnone.
      destruct (decide (is_Some None)) as [[? [=]] |].
      apply lookup_workingOf_other; assumption.
  - intros Hnone Hdefined.
    rewrite lookup_outputOfWith by discriminate.
    rewrite lookup_delegatedOf by discriminate.
    destruct (decide ("disableAnimations" ∈ propTypes.*1)) as [Hin | _].
    { exfalso. revert Hin. by_table. }
    rewrite Hnone. destruct (decide (is_Some None)) as [[? [=]] |].
    unfold workingOf. cbv zeta.
    destruct (String.eqb (typeof (get props "disableAnimations"))
                "undefined") eqn:Hundef.
    { apply typeof_undefined in Hundef. contradiction. }
    simpl negb. cbv iota.
    rewrite lookup_insert_ne by discriminate. apply lookup_insert_eq.
Qed.

(** ** Props the converter leaves alone *)

(** [easing], the four callbacks, [typeName], [getPosition] and
    [maintainContainerHeight] reach the composed component exactly as the
    component received them: the same value, or absent when absent. *)
Theorem untouched_props_pass_through this_props children k :
  k ∈ untouchedProps →
  React_Children_toArray (get this_props "children") = Some children →
  ∃ out console,
    render this_props = Some (out, console)
    ∧ out !! k = this_props !! k.
Proof.
  intros Hk Hchildren.
  exists (outputOf this_props children), (consoleOf this_props children).
  split; [apply render_eq; exact Hchildren |].
  unfold untouchedProps in Hk. rewrite !elem_of_cons, elem_of_nil in Hk.
  rewrite lookup_outputOf_primary
    by (repeat destruct Hk as [-> | Hk]; try destruct Hk; by_table).
  apply lookup_workingOf_unwritten;
    repeat destruct Hk as [-> | Hk]; try destruct Hk; by_table.
Qed.

(** ** One field at a time *)

(** A timing field or an animation field of the result, and the
    diagnostics that name a timing field, depend on that prop alone: two
    components that agree on it get the same field and the same diagnostics
    for it, however their other props and their children differ. *)
Theorem field_locality props1 props2 children1 children2 prop :
  prop ∈ timingPropNames ++ ["enterClassName"; "leaveClassName"] →
  get props1 prop = get props2 prop →
  React_Children_toArray (get props1 "children") = Some children1 →
  React_Children_toArray (get props2 "children") = Some children2 →
  ∃ out1 console1 out2 console2,
    render props1 = Some (out1, console1)
    ∧ render props2 = Some (out2, console2)
    ∧ out1 !! prop = out2 !! prop
    ∧ is_Some (out1 !! prop)
    ∧ List.filter (namesField prop) console1
      = List.filter (namesField prop) console2.
Proof.
  intros Hprop Hsame Hchildren1 Hchildren2.
  exists (outputOf props1 children1), (consoleOf props1 children1),
    (outputOf props2 children2), (consoleOf props2 children2).
  split; [apply render_eq; exact Hchildren1 |].
  split; [apply render_eq; exact Hchildren2 |].
  apply elem_of_app in Hprop as [Htiming | Hanimation].
  - rewrite !lookup_outputOf_primary
      by (apply timingPropNames_primary, Htiming).
    rewrite !lookup_workingOf_timing by exact Htiming.
    rewrite !filter_namesField_consoleOf by exact Htiming.
    rewrite Hsame. repeat split; eauto.
  - rewrite !lookup_outputOf_primary
      by (apply animationProps_primary, Hanimation).
    rewrite !lookup_workingOf_animation by exact Hanimation.
    rewrite Hsame. split; [reflexivity |]. split; [eauto |].
    assert (Hnone : ∀ props children,
              List.filter (namesField prop) (consoleOf props children) = []).
    { intros props children.
      unfold consoleOf, timingPropNames, timingDiagnostics. simpl concat.
      rewrite !List.filter_app.
      rewrite !elem_of_cons, elem_of_nil in Hanimation.
      destruct Hanimation as [-> | [-> | []]];
        destruct (forallb _ _), (negb _); simpl;
        repeat (destruct (isNaN _); simpl); reflexivity. }
    rewrite !Hnone. reflexivity.
Qed.

(** ** Timing props that are not numbers or strings *)

(** A timing prop that is absent or [undefined] is replaced by the field's
    default, with one diagnostic whose value is [undefined]; [null], [true]
    and [false] are not NaN to [isNaN]: they are stored as they are and
    nothing is written about them. *)
Theorem timing_absent_null_boolean this_props children prop :
  prop ∈ timingPropNames →
  React_Children_toArray (get this_props "children") = Some children →
  ∃ out console,
    render this_props = Some (out, console)
    ∧ (get this_props prop = VUndefined →
       out !! prop = Some (get defaultProps prop)
       ∧ List.filter (namesField prop) console
         = [ConsoleError
              (invalidTypeForTimingProp prop VUndefined
                 (get defaultProps prop))])
    ∧ (∀ v, get this_props prop = v →
            v = VNull ∨ (∃ b, v = VBool b) →
            out !! prop = Some v
            ∧ List.filter (namesField prop) console = []).
Proof.
  intros Hprop Hchildren.
  exists (outputOf this_props children), (consoleOf this_props children).
  split; [apply render_eq; exact Hchildren |].
  rewrite filter_namesField_consoleOf by exact Hprop.
  rewrite lookup_outputOf_primary by (apply timingPropNames_primary, Hprop).
  rewrite lookup_workingOf_timing by exact Hprop.
  unfold timingValue, timingDiagnostics. split.
  - intros ->. split; reflexivity.
  - intros v -> [-> | [[] ->]]; split; reflexivity.
Qed.

(** ** The console *)

(** What [convertProps] writes, in order: the warning about stateless
    components if it applies, then one error for each timing prop that
    fails [isNaN], in the order [duration], [delay], [staggerDurationBy],
    [staggerDelayBy], then the deprecation warning if it applies; never more
    than six lines, and nothing that was on the console before is lost. *)
Theorem console_order this_props props children console :
  React_Children_toArray (get props "children") = Some children →
  ∃ out written,
    convertProps this_props props console = Some (out, console ++ written)
    ∧ written
      = (if existsb (λ child, isElementAnSFC child && keyDefined child)
              children
         then [ConsoleWarn statelessFunctionalComponentSupplied] else [])
        ++ concat
             (map (λ prop,
                     let value :=
                       match get props prop with
                       | VStr s => VNum (parseInt s 10)
                       | _ => get props prop
                       end in
                     if isNaN value
                     then [ConsoleError
                             (invalidTypeForTimingProp prop value
                                (get defaultProps prop))]
                     else [])
                timingPropNames)
        ++ (if isUndefined (get props "disableAnimations") then []
            else [ConsoleWarn deprecatedDisableAnimations])
    ∧ length written ≤ 6.
Proof.
  intros Hchildren.
  exists (outputOfWith this_props props children), (consoleOf props children).
  split; [apply convertProps_eq; exact Hchildren |].
  unfold consoleOf, timingDiagnostics, coerceTiming.
  rewrite forallb_accepted, isUndefined_typeof.
  split.
  - destruct (existsb _ children), (isUndefined _); reflexivity.
  - unfold timingPropNames. cbn [concat map].
    destruct (existsb _ children), (isUndefined _); simpl negb; cbv iota;
      repeat (destruct (isNaN _)); simpl; lia.
Qed.

(** ** The keys of the result *)

Lemma dom_omit (o : Obj) attrs :
  dom (omit o attrs) = dom o ∖ list_to_set attrs.
Proof.
  apply set_eq. intros k.
  rewrite elem_of_difference, !elem_of_dom, lookup_omit, elem_of_list_to_set.
  destruct (decide (k ∈ attrs)) as [Hin | Hout].
  - split; [intros [? [=]] | intros [_ Hno]; contradiction].
  - split; [intros Hk; split; assumption | intros [Hk _]; exact Hk].
Qed.

Lemma dom_delegatedOf this_props :
  dom (delegatedOf this_props)
  = {["style"]} ∪ (dom this_props ∖ list_to_set propTypes.*1).
Proof. unfold delegatedOf. rewrite dom_insert_L, dom_omit. reflexivity. Qed.

Lemma dom_workingOf props children :
  dom (workingOf props children)
  = list_to_set writtenProps ∪ dom props
    ∪ (if isUndefined (get props "disableAnimations") then ∅
       else {["disableAnimations"; "disableAllAnimations"]}).
Proof.
  unfold workingOf, timedOf, writtenProps, timingPropNames.
  rewrite isUndefined_typeof. simpl foldl. cbv zeta.
  destruct (isUndefined _); simpl negb; cbv iota;
    rewrite !dom_insert_L; simpl; apply set_eq; intros k; set_unfold;
    tauto.
Qed.

(** No prop is lost and none is invented. The bag has [style] and the
    caller's props outside the schema; the top level has [delegated], the
    seven props the converter always writes, the caller's props of the
    schema, and [disableAllAnimations] when the legacy prop was given; so
    every prop the caller passed is on one side or the other. *)
Theorem result_keys this_props children :
  React_Children_toArray (get this_props "children") = Some children →
  ∃ out console d,
    render this_props = Some (out, console)
    ∧ out !! "delegated" = Some (VObj d)
    ∧ dom d = {["style"]} ∪ (dom this_props ∖ list_to_set propTypes.*1)
    ∧ dom out
      = {["delegated"]} ∪ list_to_set writtenProps
        ∪ (dom this_props ∩ list_to_set propTypes.*1)
        ∪ (if isUndefined (get this_props "disableAnimations") then ∅
           else {["disableAllAnimations"]})
    ∧ dom this_props ⊆ dom out ∪ dom d.
Proof.
  intros Hchildren.
  exists (outputOf this_props children), (consoleOf this_props children),
    (delegatedOf this_props).
  split; [apply render_eq; exact Hchildren |].
  split; [apply lookup_outputOf_delegated |].
  split; [apply dom_delegatedOf |].
  assert (Hout : dom (outputOf this_props children)
                 = {["delegated"]} ∪ list_to_set writtenProps
                   ∪ (dom this_props ∩ list_to_set propTypes.*1)
                   ∪ (if isUndefined (get this_props "disableAnimations")
                      then ∅ else {["disableAllAnimations"]})).
  { apply set_eq. intros k.
    destruct (decide (k = "delegated")) as [-> | Hd].
    { rewrite elem_of_dom, lookup_outputOf_delegated. split; [| eauto].
      intros _. do 3 apply elem_of_union_l. apply elem_of_singleton.
      reflexivity. }
    destruct (decide (k ∈ propTypes.*1)) as [Hschema | Hother].
    - rewrite elem_of_dom, lookup_outputOf_primary by exact Hschema.
      rewrite <- elem_of_dom, dom_workingOf.
      rewrite !elem_of_union, elem_of_intersection, elem_of_singleton.
      rewrite (elem_of_list_to_set (C := gset string) k propTypes.*1).
      destruct (isUndefined (get this_props "disableAnimations")).
      + rewrite elem_of_empty. tauto.
      + rewrite !elem_of_union, !elem_of_singleton.
        assert (k ≠ "disableAnimations")
          by (intros ->; revert Hschema; by_table).
        tauto.
    - rewrite elem_of_dom, lookup_outputOf_other by assumption.
      rewrite !elem_of_union, elem_of_intersection, elem_of_singleton.
      rewrite (elem_of_list_to_set (C := gset string) k propTypes.*1).
      split; [intros [? [=]] |].
      intros [[[Heq | Hwritten] | [_ Hno]] | Hshim];
        [contradiction | | contradiction |].
      + exfalso. apply Hother.
        apply elem_of_list_to_set in Hwritten. revert Hwritten.
        unfold writtenProps, timingPropNames. simpl app.
        rewrite !elem_of_cons, elem_of_nil.
        intros H; repeat destruct H as [-> | H]; try destruct H; by_table.
      + exfalso. destruct (isUndefined _).
        * apply elem_of_empty in Hshim. exact Hshim.
        * apply elem_of_singleton in Hshim as ->. apply Hother. by_table. }
  split; [exact Hout |].
  intros k Hk. rewrite Hout, dom_delegatedOf.
  destruct (decide (k ∈ propTypes.*1)) as [Hschema | Hother].
  - apply elem_of_union_l, elem_of_union_l, elem_of_union_r.
    apply elem_of_intersection. split; [exact Hk |].
    apply elem_of_list_to_set. exact Hschema.
  - apply elem_of_union_r, elem_of_union_r, elem_of_difference.
    split; [exact Hk |]. rewrite elem_of_list_to_set. exact Hother.
Qed.

(** ** Rounding never yields NaN, and commutes with the sign *)

Lemma iter_pos_invariant {A} (P : A → Prop) (f : A → A) :
  (∀ x, P x → P (f x)) → ∀ n x, P x → P (SpecFloat.iter_pos f n x).
Proof.
  intros Hf. induction n as [n IH | n IH |]; intros x Hx; simpl; auto.
Qed.

Lemma shr_1_nonneg mrs : (0 <= shr_m mrs)%Z → (0 <= shr_m (shr_1 mrs))%Z.
Proof.
  destruct mrs as [[| [p | p |] | p] r s]; simpl; intros H; lia.
Qed.

Lemma shr_nonneg mrs e n :
  (0 <= shr_m mrs)%Z → (0 <= shr_m (fst (shr mrs e n)))%Z.
Proof.
  intros H. destruct n; simpl; try exact H.
  apply (iter_pos_invariant (λ mrs, (0 <= shr_m mrs)%Z)); [| exact H].
  apply shr_1_nonneg.
Qed.

Lemma shr_m_of_loc m l : shr_m (shr_record_of_loc m l) = m.
Proof. destruct l as [| []]; reflexivity. Qed.

Lemma round_nearest_even_nonneg m l :
  (0 <= m)%Z → (0 <= round_nearest_even m l)%Z.
Proof.
  intros H. destruct l as [| []]; simpl; try lia. destruct (Z.even m); lia.
Qed.

Lemma binary_round_aux_not_nan sx mx ex lx :
  (0 <= mx)%Z → is_nan (binary_round_aux prec emax sx mx ex lx) = false.
Proof.
  intros Hmx. unfold binary_round_aux, shr_fexp.
  pose proof (shr_nonneg (shr_record_of_loc mx lx) ex
                (fexp prec emax (Zdigits2 mx + ex) - ex)) as H1.
  rewrite shr_m_of_loc in H1. specialize (H1 Hmx).
  destruct (shr _ ex _) as [mrs' e']. simpl in H1.
  pose proof (round_nearest_even_nonneg (shr_m mrs')
                (loc_of_shr_record mrs') H1) as Hround.
  pose proof (shr_nonneg
                (shr_record_of_loc
                   (round_nearest_even (shr_m mrs') (loc_of_shr_record mrs'))
                   loc_Exact) e'
                (fexp prec emax
                   (Zdigits2 (round_nearest_even (shr_m mrs')
                                (loc_of_shr_record mrs')) + e') - e')) as H2.
  rewrite shr_m_of_loc in H2. specialize (H2 Hround).
  destruct (shr _ e' _) as [mrs'' e'']. simpl in H2.
  destruct (shr_m mrs''); [reflexivity | | lia].
  destruct (_ <=? _)%Z; reflexivity.
Qed.

Lemma binary_normalize_not_nan z e sz :
  is_nan (binary_normalize prec emax z e sz) = false.
Proof.
  destruct z; simpl; [reflexivity | |];
    unfold binary_round; destruct (shl_align _ _ _);
    apply binary_round_aux_not_nan; lia.
Qed.

Lemma binary_round_negative m e :
  binary_round prec emax true m e = SFopp (binary_round prec emax false m e).
Proof.
  unfold binary_round. destruct (shl_align _ _ _) as [mz ez].
  unfold binary_round_aux. destruct (shr_fexp _ _ _ _ _) as [mrs' e'].
  destruct (shr_fexp _ _ _ _ _) as [mrs'' e''].
  destruct (shr_m mrs''); try reflexivity.
  destruct (_ <=? _)%Z; reflexivity.
Qed.

Lemma digitValue_pretty_N_char d :
  (d < 10)%N → digitValue (pretty_N_char d) = Some (Z.of_N d).
Proof.
  intros Hd.
  assert (d = 0 ∨ d = 1 ∨ d = 2 ∨ d = 3 ∨ d = 4 ∨ d = 5 ∨ d = 6 ∨ d = 7
          ∨ d = 8 ∨ d = 9)%N as H by lia.
  repeat destruct H as [-> | H]; try subst d; reflexivity.
Qed.

Lemma pretty_N_go_app x s t :
  pretty_N_go x s +:+ t = pretty_N_go x (s +:+ t).
Proof.
  revert s. induction (N.lt_wf_0 x) as [x _ IH]; intros s.
  assert (x = 0 ∨ 0 < x)%N as [-> | Hx] by lia.
  - rewrite !pretty_N_go_0. reflexivity.
  - rewrite (pretty_N_go_step x s), (pretty_N_go_step x (s +:+ t))
      by exact Hx.
    rewrite IH by (apply N.div_lt; lia). reflexivity.
Qed.

(** Reading back the digits [pretty] writes. *)
Lemma parseDigits_pretty_N_go x :
  ∀ s acc, (0 < x)%N →
    ∃ k, (0 <= k)%Z ∧
      parseDigits 10 (pretty_N_go x s) acc
      = parseDigits 10 s (Some (default 0 acc * 10 ^ k + Z.of_N x))%Z.
Proof.
  induction (N.lt_wf_0 x) as [x _ IH]; intros s acc Hx.
  rewrite pretty_N_go_step by exact Hx.
  assert (Hdigit : digitValue (pretty_N_char (x `mod` 10))
                   = Some (Z.of_N (x `mod` 10)))
    by (apply digitValue_pretty_N_char; apply N.mod_lt; discriminate).
  assert (Hlt : (Z.of_N (x `mod` 10) <? 10)%Z = true).
  { apply Z.ltb_lt. pose proof (N.mod_lt x 10 ltac:(discriminate)). lia. }
  assert (Hx10 : Z.of_N x
                 = (10 * Z.of_N (x `div` 10) + Z.of_N (x `mod` 10))%Z).
  { rewrite (N.div_mod x 10) at 1 by discriminate. lia. }
  destruct (N.eq_0_gt_0_cases (x `div` 10)) as [Hzero | Hpos].
  - rewrite Hzero, pretty_N_go_0. exists 1%Z. split; [lia |].
    simpl parseDigits. rewrite Hdigit, Hlt. do 2 f_equal.
    rewrite Hx10, Hzero. simpl Z.of_N. rewrite Z.pow_1_r. ring.
  - destruct (IH (x `div` 10)%N (N.div_lt x 10 Hx eq_refl)
                (String (pretty_N_char (x `mod` 10)) s) acc Hpos)
      as (k & Hk & ->).
    exists (k + 1)%Z. split; [lia |].
    simpl parseDigits. rewrite Hdigit, Hlt. do 2 f_equal. simpl default.
    rewrite Z.pow_add_r, Z.pow_1_r, Hx10 by lia. ring.
Qed.

(** ** [parseInt] on decimal numerals *)

Lemma isDecimalDigit_plain c :
  isDecimalDigit c = true →
  isStrWhiteSpaceChar c = false ∧ c ≠ "-"%char ∧ c ≠ "+"%char.
Proof.
  destruct c as [[] [] [] [] [] [] [] []]; try discriminate;
    intros _; repeat split; discriminate.
Qed.

Lemma trimStart_whitespace ws t :
  allWhiteSpace ws = true → trimStart (ws +:+ t) = trimStart t.
Proof.
  induction ws as [| c ws IH]; simpl; [reflexivity |].
  intros [Hc Hws]%andb_true_iff. rewrite Hc. apply IH, Hws.
Qed.

Lemma trimStart_digit t :
  startsWithDecimalDigit t = true → trimStart t = t.
Proof.
  destruct t as [| c t]; simpl; [reflexivity |].
  intros Hc. destruct (isDecimalDigit_plain c Hc) as (-> & _). reflexivity.
Qed.

Lemma stripSign_digit t :
  startsWithDecimalDigit t = true → stripSign t = (false, t).
Proof.
  destruct t as [| c t]; simpl; [reflexivity |].
  intros Hc. destruct (isDecimalDigit_plain c Hc) as (_ & Hminus & Hplus).
  destruct c as [[] [] [] [] [] [] [] []]; try reflexivity; congruence.
Qed.

Lemma parseDigits_not_digit s acc :
  startsWithDecimalDigit s = false → parseDigits 10 s acc = acc.
Proof.
  destruct s as [| c s]; simpl; [reflexivity |].
  unfold isDecimalDigit. destruct (digitValue c) as [d |]; [| reflexivity].
  intros ->. reflexivity.
Qed.

Lemma startsWithDecimalDigit_pretty_N_go x s :
  (0 < x)%N → startsWithDecimalDigit (pretty_N_go x s) = true.
Proof.
  revert s. induction (N.lt_wf_0 x) as [x _ IH]; intros s Hx.
  rewrite pretty_N_go_step by exact Hx.
  destruct (N.eq_0_gt_0_cases (x `div` 10)) as [Hzero | Hpos].
  - rewrite Hzero, pretty_N_go_0. simpl. unfold isDecimalDigit.
    rewrite digitValue_pretty_N_char by (apply N.mod_lt; discriminate).
    apply Z.ltb_lt. pose proof (N.mod_lt x 10 ltac:(discriminate)). lia.
  - apply IH; [apply N.div_lt; [exact Hx | reflexivity] | exact Hpos].
Qed.

(** A numeral followed by something that is not a digit: the digits are all
    read, and nothing else. *)
Lemma numeral_read (n : N) suffix :
  startsWithDecimalDigit suffix = false →
  startsWithDecimalDigit (pretty n +:+ suffix) = true
  ∧ parseDigits 10 (pretty n +:+ suffix) None = Some (Z.of_N n).
Proof.
  intros Hsuffix. unfold pretty, pretty_N.
  destruct (decide (n = 0%N)) as [-> | Hn].
  - split; [reflexivity |]. simpl.
    rewrite parseDigits_not_digit by exact Hsuffix. reflexivity.
  - assert (0 < n)%N as Hpos by lia.
    rewrite pretty_N_go_app. change ("" +:+ suffix) with suffix.
    split; [apply startsWithDecimalDigit_pretty_N_go, Hpos |].
    destruct (parseDigits_pretty_N_go n suffix None Hpos) as (k & Hk & ->).
    rewrite parseDigits_not_digit by exact Hsuffix. simpl. reflexivity.
Qed.

Lemma parseInt_10 s :
  parseInt s 10
  = match parseDigits 10 (stripSign (trimStart s)).2 None with
    | None => S754_nan
    | Some mathInt =>
        binary_normalize prec emax
          (if (stripSign (trimStart s)).1 then - mathInt else mathInt)%Z 0
          (stripSign (trimStart s)).1
    end.
Proof. unfold parseInt. destruct (stripSign (trimStart s)); reflexivity. Qed.

Lemma parseInt_numeral ws (plus : bool) (n : N) suffix :
  allWhiteSpace ws = true →
  startsWithDecimalDigit suffix = false →
  parseInt (ws +:+ (if plus then "+" else "") +:+ pretty n +:+ suffix) 10
  = ofZ (Z.of_N n).
Proof.
  intros Hws Hsuffix.
  destruct (numeral_read n suffix Hsuffix) as [Hdigit Hread].
  rewrite parseInt_10, trimStart_whitespace by exact Hws.
  destruct plus.
  - replace (stripSign (trimStart ("+" +:+ pretty n +:+ suffix)))
      with (false, pretty n +:+ suffix) by reflexivity.
    cbn [fst snd]. rewrite Hread. reflexivity.
  - change ("" +:+ pretty n +:+ suffix) with (pretty n +:+ suffix).
    rewrite trimStart_digit, stripSign_digit by exact Hdigit.
    cbn [fst snd]. rewrite Hread. reflexivity.
Qed.

Lemma parseInt_negative_numeral ws (n : N) suffix :
  allWhiteSpace ws = true →
  startsWithDecimalDigit suffix = false →
  parseInt (ws +:+ "-" +:+ pretty n +:+ suffix) 10
  = negate (ofZ (Z.of_N n)).
Proof.
  intros Hws Hsuffix.
  destruct (numeral_read n suffix Hsuffix) as [Hdigit Hread].
  rewrite parseInt_10, trimStart_whitespace by exact Hws.
  replace (stripSign (trimStart ("-" +:+ pretty n +:+ suffix)))
    with (true, pretty n +:+ suffix) by reflexivity.
  cbn [fst snd]. rewrite Hread. unfold negate, ofZ.
  destruct n as [| p]; [reflexivity |].
  apply binary_round_negative.
Qed.

Lemma parseInt_without_digits s :
  startsWithDecimalDigit (stripSign (trimStart s)).2 = false →
  parseInt s 10 = S754_nan.
Proof.
  intros Hs. rewrite parseInt_10, parseDigits_not_digit by exact Hs.
  reflexivity.
Qed.

(** ** Timing coercion *)

Lemma isNaN_ofZ z : isNaN (VNum (ofZ z)) = false.
Proof.
  unfold isNaN. simpl ToNumber. unfold ofZ.
  apply binary_normalize_not_nan.
Qed.

Lemma isNaN_negate_ofZ z : isNaN (VNum (negate (ofZ z))) = false.
Proof.
  unfold isNaN, negate, ofZ. simpl ToNumber.
  pose proof (binary_normalize_not_nan z 0 false) as Hz.
  destruct (binary_normalize _ _ _ _ _); try discriminate; reflexivity.
Qed.

(** C1. Each of [duration], [delay], [staggerDurationBy] and
    [staggerDelayBy] is read from the props; a string is parsed with
    [parseInt(_, 10)], another value is taken as it is. When the value so
    obtained is the number NaN, the console receives exactly one diagnostic
    for that field, built from the field's name, the value NaN and the
    field's own default (350 for [duration], 0 for the other three), and the
    result holds that default. When it is a number other than NaN (a parsed
    string or a number passed directly), the result holds that number and
    the console has no diagnostic for the field.

    What the parse of a string is: white space, an optional sign and the
    decimal numeral of [n], followed by anything that does not begin with a
    digit, is [n] (negated after a minus sign) rounded to binary64, so the
    field holds that number and nothing is written; a string that after
    white space and one sign does not begin with a decimal digit is NaN, so
    the field holds its default and the diagnostic is written. *)
Theorem timing_coercion this_props children prop :
  prop ∈ timingPropNames →
  React_Children_toArray (get this_props "children") = Some children →
  ∃ out console,
    render this_props = Some (out, console)
    ∧ get defaultProps prop
      = VNum (ofZ (if String.eqb prop "duration" then 350 else 0))
    ∧ let rawValue := get this_props prop in
      let value :=
        match rawValue with
        | VStr s => VNum (parseInt s 10)
        | _ => rawValue
        end in
      (value = VNum S754_nan →
       List.filter (namesField prop) console
       = [ConsoleError
            (invalidTypeForTimingProp prop (VNum S754_nan)
               (get defaultProps prop))]
       ∧ out !! prop = Some (get defaultProps prop))
      ∧ (∀ n, value = VNum n → is_nan n = false →
              List.filter (namesField prop) console = []
              ∧ out !! prop = Some (VNum n))
      ∧ (∀ ws (plus : bool) (n : N) suffix,
           allWhiteSpace ws = true →
           startsWithDecimalDigit suffix = false →
           rawValue
           = VStr (ws +:+ (if plus then "+" else "") +:+ pretty n
                   +:+ suffix) →
           value = VNum (ofZ (Z.of_N n))
           ∧ List.filter (namesField prop) console = []
           ∧ out !! prop = Some (VNum (ofZ (Z.of_N n))))
      ∧ (∀ ws (n : N) suffix,
           allWhiteSpace ws = true →
           startsWithDecimalDigit suffix = false →
           rawValue = VStr (ws +:+ "-" +:+ pretty n +:+ suffix) →
           value = VNum (negate (ofZ (Z.of_N n)))
           ∧ List.filter (namesField prop) console = []
           ∧ out !! prop = Some (VNum (negate (ofZ (Z.of_N n)))))
      ∧ (∀ s,
           rawValue = VStr s →
           startsWithDecimalDigit (stripSign (trimStart s)).2 = false →
           value = VNum S754_nan
           ∧ List.filter (namesField prop) console
             = [ConsoleError
                  (invalidTypeForTimingProp prop (VNum S754_nan)
                     (get defaultProps prop))]
           ∧ out !! prop = Some (get defaultProps prop)).
Proof.
  intros Hprop Hchildren.
  exists (outputOf this_props children), (consoleOf this_props children).
  split; [apply render_eq; exact Hchildren |].
  split; [apply defaultProps_timing; exact Hprop |].
  pose proof (timingPropNames_primary prop Hprop) as Hprimary.
  cbv zeta. fold (coerceTiming (get this_props prop)).
  rewrite filter_namesField_consoleOf by exact Hprop.
  rewrite lookup_outputOf_primary by exact Hprimary.
  rewrite lookup_workingOf_timing by exact Hprop.
  unfold timingDiagnostics, timingValue.
  split; [| split; [| split; [| split]]].
  - intros ->. simpl. split; reflexivity.
  - intros n -> Hn. unfold isNaN. simpl. rewrite Hn. split; reflexivity.
  - intros ws plus n suffix Hws Hsuffix ->. simpl coerceTiming.
    rewrite parseInt_numeral by assumption.
    rewrite isNaN_ofZ. repeat split; reflexivity.
  - intros ws n suffix Hws Hsuffix ->. simpl coerceTiming.
    rewrite parseInt_negative_numeral by assumption.
    rewrite isNaN_negate_ofZ. repeat split; reflexivity.
  - intros s -> Hs. simpl coerceTiming.
    rewrite parseInt_without_digits by exact Hs.
    repeat split; reflexivity.
Qed.

(** ** Timing props written as text *)

(** The decimal numeral of a natural number, with white space or a plus sign
    before it and anything that does not begin with a digit after it (a
    unit such as [ms]): the field is that number, rounded to binary64, and
    nothing is written about it. *)
Theorem timing_numeral this_props children prop ws (plus : bool) (n : N)
  suffix :
  prop ∈ timingPropNames →
  allWhiteSpace ws = true →
  startsWithDecimalDigit suffix = false →
  get this_props prop
  = VStr (ws +:+ (if plus then "+" else "") +:+ pretty n +:+ suffix) →
  React_Children_toArray (get this_props "children") = Some children →
  ∃ out console,
    render this_props = Some (out, console)
    ∧ out !! prop = Some (VNum (ofZ (Z.of_N n)))
    ∧ List.filter (namesField prop) console = [].
Proof.
  intros Hprop Hws Hsuffix Hraw Hchildren.
  exists (outputOf this_props children), (consoleOf this_props children).
  split; [apply render_eq; exact Hchildren |].
  rewrite filter_namesField_consoleOf by exact Hprop.
  rewrite lookup_outputOf_primary by (apply timingPropNames_primary, Hprop).
  rewrite lookup_workingOf_timing by exact Hprop.
  unfold timingValue, timingDiagnostics.
  rewrite Hraw. simpl coerceTiming.
  rewrite parseInt_numeral by assumption.
  unfold isNaN. simpl ToNumber. unfold ofZ.
  rewrite binary_normalize_not_nan. split; reflexivity.
Qed.

(** No clamping: a numeral with a minus sign gives the negated number
    ([-0] for ["-0"]), and nothing is written about it. *)
Theorem timing_negative_numeral this_props children prop ws (n : N) suffix :
  prop ∈ timingPropNames →
  allWhiteSpace ws = true →
  startsWithDecimalDigit suffix = false →
  get this_props prop = VStr (ws +:+ "-" +:+ pretty n +:+ suffix) →
  React_Children_toArray (get this_props "children") = Some children →
  ∃ out console,
    render this_props = Some (out, console)
    ∧ out !! prop = Some (VNum (negate (ofZ (Z.of_N n))))
    ∧ List.filter (namesField prop) console = [].
Proof.
  intros Hprop Hws Hsuffix Hraw Hchildren.
  exists (outputOf this_props children), (consoleOf this_props children).
  split; [apply render_eq; exact Hchildren |].
  rewrite filter_namesField_consoleOf by exact Hprop.
  rewrite lookup_outputOf_primary by (apply timingPropNames_primary, Hprop).
  rewrite lookup_workingOf_timing by exact Hprop.
  unfold timingValue, timingDiagnostics.
  rewrite Hraw. simpl coerceTiming.
  rewrite parseInt_negative_numeral by assumption.
  assert (Hnan : isNaN (VNum (negate (ofZ (Z.of_N n)))) = false).
  { unfold isNaN, negate, ofZ. simpl ToNumber.
    pose proof (binary_normalize_not_nan (Z.of_N n) 0 false) as Hn.
    destruct (binary_normalize _ _ _ _ _); try discriminate; reflexivity. }
  rewrite Hnan. split; reflexivity.
Qed.

(** Text that, after leading white space and one sign, does not begin with a
    decimal digit (the empty string, ["abc"], [".5"], ["px10"]) is not a
    number: the field takes its default and one diagnostic carries NaN. *)
Theorem timing_without_digits this_props children prop s :
  prop ∈ timingPropNames →
  startsWithDecimalDigit (stripSign (trimStart s)).2 = false →
  get this_props prop = VStr s →
  React_Children_toArray (get this_props "children") = Some children →
  ∃ out console,
    render this_props = Some (out, console)
    ∧ out !! prop = Some (get defaultProps prop)
    ∧ List.filter (namesField prop) console
      = [ConsoleError
           (invalidTypeForTimingProp prop (VNum S754_nan)
              (get defaultProps prop))].
Proof.
  intros Hprop Hs Hraw Hchildren.
  exists (outputOf this_props children), (consoleOf this_props children).
  split; [apply render_eq; exact Hchildren |].
  rewrite filter_namesField_consoleOf by exact Hprop.
  rewrite lookup_outputOf_primary by (apply timingPropNames_primary, Hprop).
  rewrite lookup_workingOf_timing by exact Hprop.
  unfold timingValue, timingDiagnostics.
  rewrite Hraw. simpl coerceTiming.
  rewrite parseInt_without_digits by exact Hs.
  split; reflexivity.
Qed.

(** ** Default props *)

(** What React's resolution of [defaultProps] leaves under each key. *)
Lemma lookup_resolveDefaultProps raw k :
  resolveDefaultProps raw !! k
  = match defaultProps !! k with
    | Some defaultValue =>
        if isUndefined (get raw k) then Some defaultValue else raw !! k
    | None => raw !! k
    end.
Proof.
  unfold resolveDefaultProps. revert k.
  apply (map_fold_weak_ind
           (λ resolved (defaults : Obj), ∀ k,
              resolved !! k
              = match defaults !! k with
                | Some defaultValue =>
                    if isUndefined (get raw k) then Some defaultValue
                    else raw !! k
                | None => raw !! k
                end)).
  - intros k. rewrite lookup_empty. reflexivity.
  - intros i x defaults resolved Hfresh IH k.
    assert (Hi : get resolved i = get raw i).
    { unfold get. rewrite IH, Hfresh. reflexivity. }
    rewrite Hi. destruct (decide (k = i)) as [-> | Hne].
    + rewrite lookup_insert_eq.
      destruct (isUndefined (get raw i)); [apply lookup_insert_eq |].
      rewrite IH, Hfresh. reflexivity.
    + rewrite (lookup_insert_ne defaults) by congruence.
      destruct (isUndefined (get raw i));
        [rewrite lookup_insert_ne by congruence |]; apply IH.
Qed.

(** Every default belongs to a prop of the schema. *)
Lemma defaultProps_primary k :
  k ∉ propTypes.*1 → defaultProps !! k = None.
Proof.
  intros Hk. unfold defaultProps. simpl list_to_map.
  rewrite !lookup_insert_ne by (intros <-; apply Hk; by_table).
  apply lookup_empty.
Qed.

(** What [React.createElement] resolves, prop by prop. *)
Lemma lookup_createElement_props config k :
  createElement_props config !! k
  = if decide (k ∈ RESERVED_PROPS) then None
    else match defaultProps !! k with
         | Some defaultValue =>
             if isUndefined (get config k) then Some defaultValue
             else config !! k
         | None => config !! k
         end.
Proof.
  unfold createElement_props. rewrite lookup_resolveDefaultProps.
  unfold get. rewrite lookup_omit.
  destruct (decide (k ∈ RESERVED_PROPS)) as [Hreserved | _]; [| reflexivity].
  rewrite defaultProps_primary; [reflexivity |].
  intros Hk. revert Hreserved. unfold RESERVED_PROPS.
  rewrite !elem_of_cons, elem_of_nil.
  intros [-> | [-> | [-> | [-> | []]]]]; revert Hk; by_table.
Qed.

Lemma get_createElement_props_other config k :
  k ∉ RESERVED_PROPS →
  defaultProps !! k = None →
  get (createElement_props config) k = get config k.
Proof.
  intros Hreserved Hk. unfold get. rewrite lookup_createElement_props, Hk.
  destruct (decide (k ∈ RESERVED_PROPS)); [contradiction | reflexivity].
Qed.

Lemma get_createElement_props_default config k defaultValue :
  k ∉ RESERVED_PROPS →
  defaultProps !! k = Some defaultValue →
  get (createElement_props config) k
  = if isUndefined (get config k) then defaultValue else get config k.
Proof.
  intros Hreserved Hk. unfold get at 1.
  rewrite lookup_createElement_props, Hk.
  destruct (decide (k ∈ RESERVED_PROPS)); [contradiction |].
  destruct (isUndefined (get config k)); reflexivity.
Qed.

Lemma timingDiagnostics_settled prop v :
  (∃ n, v = VNum n ∧ is_nan n = false) → timingDiagnostics prop v = [].
Proof.
  intros (n & -> & Hn). unfold timingDiagnostics, isNaN. simpl.
  rewrite Hn. reflexivity.
Qed.

(** A caller who leaves a prop out gets the default declared for it, and no
    diagnostic: the timing defaults are numbers, the default preset is
    wrapped like any other animation value, and [disableAllAnimations] is
    [false] unless the legacy prop says otherwise. *)
Theorem normalize_defaults raw children :
  React_Children_toArray (get raw "children") = Some children →
  ∃ out console,
    normalize raw = Some (out, console)
    ∧ (∀ prop, prop ∈ timingPropNames → isUndefined (get raw prop) = true →
         out !! prop = Some (get defaultProps prop)
         ∧ List.filter (namesField prop) console = [])
    ∧ (∀ k, k ∈ ["easing"; "typeName"; "getPosition";
                 "maintainContainerHeight"] →
         isUndefined (get raw k) = true →
         out !! k = defaultProps !! k ∧ is_Some (out !! k))
    ∧ (∀ prop, prop ∈ ["enterClassName"; "leaveClassName"] →
         isUndefined (get raw prop) = true →
         out !! prop = Some (convertAnimationProp defaultPreset))
    ∧ (isUndefined (get raw "disableAnimations") = true →
       isUndefined (get raw "disableAllAnimations") = true →
       out !! "disableAllAnimations" = Some (VBool false)).
Proof.
  intros Hchildren. unfold normalize.
  assert (Hkids : React_Children_toArray
                    (get (createElement_props raw) "children")
                  = Some children).
  { rewrite get_createElement_props_other by (by_table || reflexivity).
    exact Hchildren. }
  exists (outputOf (createElement_props raw) children),
    (consoleOf (createElement_props raw) children).
  split; [apply render_eq; exact Hkids |].
  split; [| split; [| split]].
  - intros prop Hprop Hundef.
    rewrite filter_namesField_consoleOf by exact Hprop.
    rewrite lookup_outputOf_primary by (apply timingPropNames_primary, Hprop).
    rewrite lookup_workingOf_timing by exact Hprop.
    assert (Hget : get (createElement_props raw) prop
                   = get defaultProps prop).
    { unfold get at 1. rewrite lookup_createElement_props. unfold get at 2.
      revert Hprop Hundef. unfold timingPropNames.
      rewrite !elem_of_cons, elem_of_nil.
      intros [-> | [-> | [-> | [-> | []]]]] ->; reflexivity. }
    rewrite Hget, (defaultProps_timing prop Hprop).
    unfold timingValue, timingDiagnostics.
    destruct (String.eqb prop "duration"); split; reflexivity.
  - intros k Hk Hundef.
    rewrite !elem_of_cons, elem_of_nil in Hk.
    rewrite lookup_outputOf_primary
      by (repeat destruct Hk as [-> | Hk]; try destruct Hk; by_table).
    rewrite lookup_workingOf_unwritten
      by (repeat destruct Hk as [-> | Hk]; try destruct Hk; by_table).
    rewrite lookup_createElement_props.
    repeat destruct Hk as [-> | Hk]; try destruct Hk;
      rewrite Hundef; split; (reflexivity || eauto).
  - intros prop Hprop Hundef.
    rewrite lookup_outputOf_primary by (apply animationProps_primary, Hprop).
    rewrite lookup_workingOf_animation by exact Hprop.
    unfold get at 1. rewrite lookup_createElement_props.
    rewrite !elem_of_cons, elem_of_nil in Hprop.
    destruct Hprop as [-> | [-> | []]]; rewrite Hundef; reflexivity.
  - intros Hlegacy Hnew.
    rewrite lookup_outputOf_primary by by_table.
    rewrite lookup_workingOf_disableAllAnimations.
    rewrite get_createElement_props_other by (by_table || reflexivity).
    rewrite isUndefined_typeof, Hlegacy.
    rewrite lookup_createElement_props, Hnew. reflexivity.
Qed.

(** Only the caller's own extra props are forwarded. The bag of [normalize]
    holds no prop of the schema, however many defaults React filled in, and
    neither [key] nor [ref], which React keeps for itself; every other prop
    of the caller is in it with the caller's value, and [style] is the
    caller's style over [{position: 'relative'}]. *)
Theorem normalize_delegates_raw raw children :
  React_Children_toArray (get raw "children") = Some children →
  ∃ out console d,
    normalize raw = Some (out, console)
    ∧ out !! "delegated" = Some (VObj d)
    ∧ (∀ k, k ∈ propTypes.*1 → d !! k = None)
    ∧ (∀ k, k ∈ RESERVED_PROPS → d !! k = None ∧ out !! k = None)
    ∧ (∀ k, k ∉ propTypes.*1 → k ∉ RESERVED_PROPS → k ≠ "style" →
         d !! k = raw !! k)
    ∧ d !! "style"
      = Some (VObj (ownProperties (get raw "style")
                    ∪ {["position" := VStr "relative"]})).
Proof.
  intros Hchildren. unfold normalize.
  assert (Hkids : React_Children_toArray
                    (get (createElement_props raw) "children")
                  = Some children).
  { rewrite get_createElement_props_other by (by_table || reflexivity).
    exact Hchildren. }
  exists (outputOf (createElement_props raw) children),
    (consoleOf (createElement_props raw) children),
    (delegatedOf (createElement_props raw)).
  split; [apply render_eq; exact Hkids |].
  split; [apply lookup_outputOf_delegated |].
  split; [| split; [| split]].
  - intros k Hk.
    rewrite lookup_delegatedOf by (intros ->; revert Hk; by_table).
    destruct (decide (k ∈ propTypes.*1)); [reflexivity | contradiction].
  - intros k Hk.
    assert (Hkeys : (k ∉ propTypes.*1) ∧ k ≠ "style" ∧ k ≠ "delegated").
    { revert Hk. unfold RESERVED_PROPS. rewrite !elem_of_cons, elem_of_nil.
      intros [-> | [-> | [-> | [-> | []]]]];
        (split; [by_table | split; discriminate]). }
    destruct Hkeys as (Hschema & Hstyle & Hdelegated). split.
    + rewrite lookup_delegatedOf by exact Hstyle.
      destruct (decide (k ∈ propTypes.*1)); [reflexivity |].
      rewrite lookup_createElement_props.
      destruct (decide (k ∈ RESERVED_PROPS)); [reflexivity | contradiction].
    + apply lookup_outputOf_other; assumption.
  - intros k Hk Hreserved Hstyle. rewrite lookup_delegatedOf by exact Hstyle.
    destruct (decide (k ∈ propTypes.*1)); [contradiction |].
    rewrite lookup_createElement_props, defaultProps_primary by exact Hk.
    destruct (decide (k ∈ RESERVED_PROPS)); [contradiction | reflexivity].
  - rewrite lookup_delegatedOf_style.
    rewrite get_createElement_props_other by (by_table || reflexivity).
    reflexivity.
Qed.

(** A quiet console: when every timing prop is left out or is a number other
    than NaN, the legacy prop is left out, and no canonical child is a
    stateless component with a key, [normalize] writes nothing. *)
Theorem normalize_quiet raw children :
  React_Children_toArray (get raw "children") = Some children →
  (∀ prop, prop ∈ timingPropNames →
     isUndefined (get raw prop) = true
     ∨ ∃ n, get raw prop = VNum n ∧ is_nan n = false) →
  isUndefined (get raw "disableAnimations") = true →
  Forall (λ child, isElementAnSFC child && keyDefined child = false)
    children →
  ∃ out, normalize raw = Some (out, []).
Proof.
  intros Hchildren Htiming Hlegacy Hstateful. unfold normalize.
  assert (Hkids : React_Children_toArray
                    (get (createElement_props raw) "children")
                  = Some children).
  { rewrite get_createElement_props_other by (by_table || reflexivity).
    exact Hchildren. }
  exists (outputOf (createElement_props raw) children).
  rewrite (render_eq _ _ Hkids). do 2 f_equal.
  assert (Hsettled : ∀ prop, prop ∈ timingPropNames →
            timingDiagnostics prop (get (createElement_props raw) prop) = []).
  { intros prop Hprop. apply timingDiagnostics_settled.
    assert ((prop ∉ RESERVED_PROPS)
            ∧ ∃ d, defaultProps !! prop = Some (VNum d) ∧ is_nan d = false)
      as (Hreserved & d & Hd & Hdn).
    { revert Hprop. unfold timingPropNames.
      rewrite !elem_of_cons, elem_of_nil.
      intros [-> | [-> | [-> | [-> | []]]]];
        (split; [by_table | eexists; split; reflexivity]). }
    rewrite (get_createElement_props_default _ _ _ Hreserved Hd).
    destruct (Htiming prop Hprop) as [-> | (n & Hn & Hnn)]; [eauto |].
    rewrite Hn. simpl. eauto. }
  unfold consoleOf, timingPropNames. cbn [concat map].
  rewrite !Hsettled by by_table.
  rewrite get_createElement_props_other by (by_table || reflexivity).
  rewrite isUndefined_typeof, Hlegacy, forallb_accepted.
  replace (existsb _ children) with false; [reflexivity |].
  symmetry. apply not_true_is_false. intros Hexists.
  apply existsb_exists in Hexists as (child & Hin & Hchild).
  rewrite Forall_forall in Hstateful.
  apply list_elem_of_In in Hin. rewrite (Hstateful child Hin) in Hchild.
  discriminate.
Qed.

(** ** The two tables *)

(** [propTypes] and [defaultProps] agree, whatever the default preset is: no
    prop is declared twice, every default is for a declared prop, the
    declared props without a default are [children] and the four callbacks,
    the one required prop has a default, and the default of every timing
    prop is a number other than NaN, so that the value substituted for a
    rejected timing prop is never rejected itself. *)
Theorem defaults_declared :
  NoDup propTypes.*1
  ∧ dom defaultProps ⊆ list_to_set propTypes.*1
  ∧ list_to_set propTypes.*1 ∖ dom defaultProps
    = ({["children"; "onStart"; "onFinish"; "onStartAll"; "onFinishAll"]}
       : gset string)
  ∧ (∀ k t, (k, isRequired t) ∈ propTypes → is_Some (defaultProps !! k))
  ∧ (∀ prop, prop ∈ timingPropNames →
       ∃ n, defaultProps !! prop = Some (VNum n)
            ∧ isNaN (VNum n) = false
            ∧ isInteger n = true).
Proof.
  split; [by_table |].
  split; [by_table |].
  split; [by_table |].
  split.
  - intros k t Hin. apply list_elem_of_In in Hin.
    unfold propTypes, stringOrNumber, shapeOrFunc in Hin. simpl In in Hin.
    repeat (destruct Hin as [Heq | Hin]; [try discriminate Heq |]);
      [| destruct Hin].
    injection Heq as <- _. eexists. reflexivity.
  - intros prop. unfold timingPropNames. rewrite !elem_of_cons, elem_of_nil.
    intros [-> | [-> | [-> | [-> | []]]]]; eexists;
      (split; [reflexivity | split; reflexivity]).
Qed.

End PropConverter.

(** ** The capability check *)

(** C8. The console receives the warning about stateless functional
    components once if at least one child of the canonical [children] is a
    stateless functional component whose [key] is not [undefined], and not
    at all otherwise. The warning changes nothing else: the props that
    [convertProps] returns are the same whatever the capability detector
    answers. But the check reads [child.key] after
    [React.Children.toArray] has given every element a key: among the
    canonical children the ones whose [key] is not [undefined] are exactly
    the elements, and an element passed without a key, as the only child,
    arrives under the key [".0"] and raises the warning when it is
    stateless. *)
Theorem capability_check (isElementAnSFC isElementAnSFC' : JSValue → bool)
  defaultPreset ToNumberHost hostOwnProperties this_props children :
  React_Children_toArray (get this_props "children") = Some children →
  ∃ out console console',
    render isElementAnSFC defaultPreset ToNumberHost hostOwnProperties
      this_props = Some (out, console)
    ∧ out !! "children" = Some (VArr children)
    ∧ (List.filter isStatelessWarning console
       = [ConsoleWarn statelessFunctionalComponentSupplied]
       ∨ List.filter isStatelessWarning console = [])
    ∧ (List.filter isStatelessWarning console
       = [ConsoleWarn statelessFunctionalComponentSupplied]
       ↔ ∃ child, child ∈ children
                  ∧ isElementAnSFC child = true
                  ∧ keyDefined child = true)
    ∧ render isElementAnSFC' defaultPreset ToNumberHost hostOwnProperties
        this_props = Some (out, console')
    ∧ (∀ child, child ∈ children →
         keyDefined child = true ↔ typeof child = "object")
    ∧ (∀ type ref props,
         get this_props "children" = VElem type None ref props →
         children = [VElem type (Some ".0") ref props]
         ∧ (isElementAnSFC (VElem type (Some ".0") ref props) = true →
            List.filter isStatelessWarning console
            = [ConsoleWarn statelessFunctionalComponentSupplied])).
Proof.
  intros Hchildren.
  exists (outputOf defaultPreset ToNumberHost hostOwnProperties this_props
            children),
    (consoleOf isElementAnSFC defaultPreset ToNumberHost this_props children),
    (consoleOf isElementAnSFC' defaultPreset ToNumberHost this_props children).
  assert (Hkeyed : ∀ child, child ∈ children →
            keyDefined child = true ↔ typeof child = "object").
  { pose proof (toArray_canonical _ _ Hchildren) as Hcanonical.
    rewrite Forall_forall in Hcanonical.
    intros child Hin. specialize (Hcanonical child Hin).
    destruct child as [| | | | | | | | | t [k |] r p]; try discriminate;
      simpl; split; (reflexivity || discriminate). }
  assert (Hkeyless : ∀ type ref props,
            get this_props "children" = VElem type None ref props →
            children = [VElem type (Some ".0") ref props]).
  { intros type ref props Hraw. rewrite Hraw in Hchildren.
    injection Hchildren as <-. reflexivity. }
  split; [apply render_eq; exact Hchildren |].
  split.
  { rewrite lookup_outputOf_primary by by_table.
    apply lookup_workingOf_children. }
  rewrite filter_isStatelessWarning_consoleOf, forallb_accepted.
  destruct (existsb _ children) eqn:Hexists; simpl negb; cbv iota.
  - apply existsb_exists in Hexists as (child & Hin & Hchild).
    apply andb_true_iff in Hchild as [Hsfc Hkey].
    apply list_elem_of_In in Hin.
    split; [left; reflexivity |].
    split; [split; eauto |].
    split; [apply render_eq; exact Hchildren |].
    split; [exact Hkeyed |].
    intros type ref props Hraw. split; [apply Hkeyless; exact Hraw |].
    reflexivity.
  - split; [right; reflexivity |].
    split.
    { split; [discriminate |].
      intros (child & Hin & Hsfc & Hkey). exfalso.
      assert (existsb (λ child, isElementAnSFC child && keyDefined child)
                children = true) as Htrue.
      { apply existsb_exists. exists child. rewrite Hsfc, Hkey.
        split; [apply list_elem_of_In; exact Hin | reflexivity]. }
      congruence. }
    split; [apply render_eq; exact Hchildren |].
    split; [exact Hkeyed |].
    intros type ref props Hraw. split; [apply Hkeyless; exact Hraw |].
    intros Hsfc. rewrite (Hkeyless _ _ _ Hraw) in Hexists.
    simpl in Hexists. rewrite Hsfc in Hexists. discriminate Hexists.
Qed.

(** * The statements at the sample props *)

(** ["abc"] for [duration]: one diagnostic, and the default 350. ["120ms"]
    for [delay]: the number 120, and no diagnostic. *)
Lemma timing_coercion_witness :
  ∃ out console,
    render sampleSFC samplePreset sampleToNumber sampleOwnProperties
      sampleProps = Some (out, console)
    ∧ out !! "duration" = Some (VNum (ofZ 350))
    ∧ List.filter (namesField "duration") console
      = [ConsoleError
           (invalidTypeForTimingProp "duration" (VNum S754_nan)
              (VNum (ofZ 350)))]
    ∧ out !! "delay" = Some (VNum (ofZ 120))
    ∧ List.filter (namesField "delay") console = [].
Proof.
  destruct (timing_coercion sampleSFC samplePreset sampleToNumber
              sampleOwnProperties sampleProps sampleChildren "duration")
    as (out & console & Hrender & Hdefault & Hcases);
    [by_table | vm_compute; reflexivity |].
  destruct (timing_coercion sampleSFC samplePreset sampleToNumber
              sampleOwnProperties sampleProps sampleChildren "delay")
    as (out' & console' & Hrender' & _ & Hcases');
    [by_table | vm_compute; reflexivity |].
  rewrite Hrender in Hrender'. injection Hrender' as <- <-.
  cbv zeta in Hcases, Hcases'.
  destruct Hcases as (Hnan & _).
  destruct Hcases' as (_ & _ & Hnumeral & _).
  destruct Hnan as [Hlog Hout]; [vm_compute; reflexivity |].
  destruct (Hnumeral "" false 120%N "ms") as (_ & Hlog' & Hout');
    [reflexivity | reflexivity | vm_compute; reflexivity |].
  exists out, console. rewrite Hout, Hlog, Hdefault.
  split; [exact Hrender |]. repeat split; assumption.
Defined.

(** ["120ms"] for [delay]: an integer. *)
Lemma timing_fields_shape_witness :
  ∃ out console n,
    render sampleSFC samplePreset sampleToNumber sampleOwnProperties
      sampleProps = Some (out, console)
    ∧ out !! "delay" = Some (VNum n)
    ∧ (isInteger n = true ∨ ∃ sign, n = S754_infinity sign).
Proof.
  destruct (timing_fields_shape sampleSFC samplePreset sampleToNumber
              sampleOwnProperties sampleProps sampleChildren "delay")
    as (out & console & v & Hrender & Hout & _ & _ & Hcases).
  - by_table.
  - vm_compute. reflexivity.
  - cbv zeta in Hcases. destruct Hcases as [Hstring _].
    destruct (Hstring "120ms") as (n & -> & Hn); [vm_compute; reflexivity |].
    exists out, console, n. repeat split; assumption.
Defined.

(** [disableAnimations: true]: one warning, and the value moves. *)
Lemma deprecation_shim_witness :
  ∃ out console,
    render sampleSFC samplePreset sampleToNumber sampleOwnProperties
      sampleProps = Some (out, console)
    ∧ out !! "disableAnimations" = None
    ∧ List.filter isDeprecation console
      = [ConsoleWarn deprecatedDisableAnimations]
    ∧ out !! "disableAllAnimations" = Some (VBool true).
Proof.
  destruct (deprecation_shim sampleSFC samplePreset sampleToNumber
              sampleOwnProperties sampleProps sampleChildren)
    as (out & console & Hrender & Hlegacy & Hshim & _).
  - vm_compute. reflexivity.
  - destruct Hshim as [Hlog Hout]; [vm_compute; discriminate |].
    exists out, console. repeat split; assumption.
Defined.

(** [foo: 1] and [style: {color: 'red'}] are delegated. *)
Lemma delegated_style_witness :
  ∃ out console d merged,
    render sampleSFC samplePreset sampleToNumber sampleOwnProperties
      sampleProps = Some (out, console)
    ∧ out !! "delegated" = Some (VObj d)
    ∧ d !! "style" = Some (VObj merged)
    ∧ merged !! "position" = Some (VStr "relative")
    ∧ merged !! "color" = Some (VStr "red")
    ∧ d !! "foo" = Some (VNum (ofZ 1))
    ∧ out !! "foo" = None
    ∧ out !! "style" = None.
Proof.
  destruct (delegated_style sampleSFC samplePreset sampleToNumber
              sampleOwnProperties sampleProps sampleChildren)
    as (out & console & d & merged & Hrender & Hbag & Hstyle & Hmerged
        & Hd & Hout).
  - vm_compute. reflexivity.
  - cbv zeta in Hmerged. destruct Hmerged as (_ & Hposition & Hkeys).
    exists out, console, d, merged.
    split; [exact Hrender |]. split; [exact Hbag |].
    split; [exact Hstyle |]. split; [exact Hposition |].
    split; [rewrite Hkeys by discriminate; vm_compute; reflexivity |].
    split; [rewrite Hd by (by_table || discriminate); vm_compute;
            reflexivity |].
    split; apply Hout; (by_table || discriminate).
Defined.

Lemma delegated_disjoint_witness :
  ∃ out console d,
    render sampleSFC samplePreset sampleToNumber sampleOwnProperties
      sampleProps = Some (out, console)
    ∧ out !! "delegated" = Some (VObj d)
    ∧ dom d ∩ dom out ⊆ {["delegated"]}
    ∧ d !! "delegated" = None.
Proof.
  destruct (delegated_disjoint sampleSFC samplePreset sampleToNumber
              sampleOwnProperties sampleProps sampleChildren)
    as (out & console & d & Hrender & Hbag & Hdom & _ & Hself).
  - vm_compute. reflexivity.
  - exists out, console, d.
    split; [exact Hrender |]. split; [exact Hbag |]. split; [exact Hdom |].
    rewrite Hself. vm_compute. reflexivity.
Defined.

(** A shape object is wrapped; calling the wrapper returns it. *)
Lemma animation_callable_witness :
  ∃ out console f,
    render sampleSFC samplePreset sampleToNumber sampleOwnProperties
      sampleProps = Some (out, console)
    ∧ out !! "enterClassName" = Some f
    ∧ typeof f = "function"
    ∧ callArrow f [] = Some sampleShape.
Proof.
  destruct (animation_callable sampleSFC samplePreset sampleToNumber
              sampleOwnProperties sampleProps sampleChildren "enterClassName")
    as (out & console & f & Hrender & Hout & Hfun & Hcases).
  - by_table.
  - vm_compute. reflexivity.
  - cbv zeta in Hcases. destruct Hcases as [_ Hwrap].
    exists out, console, f. repeat split; try assumption.
    apply Hwrap. vm_compute. discriminate.
Defined.

Lemma children_canonical_witness :
  ∃ out console l,
    render sampleSFC samplePreset sampleToNumber sampleOwnProperties
      sampleProps = Some (out, console)
    ∧ out !! "children" = Some (VArr l)
    ∧ Forall (λ v, canonicalChild v = true) l
    ∧ withoutKey <$> l = withoutKey <$> flatten (get sampleProps "children").
Proof.
  destruct (children_canonical sampleSFC samplePreset sampleToNumber
              sampleOwnProperties sampleProps) as [_ Hsucceeds].
  destruct Hsucceeds
    as (out & console & l & Hrender & Hout & Hcanonical & Horder & _);
    [vm_compute; reflexivity |].
  exists out, console, l. repeat split; assumption.
Defined.

(** [<Item />] is stateless and was given no key: it arrives under the key
    [".0"], and the warning is written. *)
Lemma capability_check_witness :
  ∃ out console,
    render sampleSFC samplePreset sampleToNumber sampleOwnProperties
      keylessItem = Some (out, console)
    ∧ out !! "children"
      = Some (VArr [VElem (VFun "Item") (Some ".0") VNull ∅])
    ∧ List.filter isStatelessWarning console
      = [ConsoleWarn statelessFunctionalComponentSupplied].
Proof.
  destruct (capability_check sampleSFC (λ _, false) samplePreset
              sampleToNumber sampleOwnProperties keylessItem
              [VElem (VFun "Item") (Some ".0") VNull ∅])
    as (out & console & console' & Hrender & Hout & _ & _ & _ & _ & Hkeyless).
  - vm_compute. reflexivity.
  - exists out, console. split; [exact Hrender |].
    split; [exact Hout |].
    destruct (Hkeyless (VFun "Item") VNull ∅) as [_ Hwarned];
      [vm_compute; reflexivity |].
    apply Hwarned. reflexivity.
Defined.

Lemma renormalize_witness :
  ∃ out console out' console',
    render sampleSFC samplePreset sampleToNumber sampleOwnProperties
      sampleProps = Some (out, console)
    ∧ render sampleSFC samplePreset sampleToNumber sampleOwnProperties
        (delete "delegated" out) = Some (out', console')
    ∧ delete "delegated" out'
      = <["children" := VArr (rekey <$> sampleChildren)]>
          (delete "delegated" out).
Proof.
  destruct (renormalize sampleSFC samplePreset sampleToNumber
              sampleOwnProperties sampleProps sampleChildren)
    as (out & console & out' & console' & Hrender & Hrender' & Hsame & _).
  - vm_compute. reflexivity.
  - exists out, console, out', console'. repeat split; assumption.
Defined.

Lemma legacy_field_delegated_witness :
  ∃ out console d,
    render sampleSFC samplePreset sampleToNumber sampleOwnProperties
      sampleProps = Some (out, console)
    ∧ out !! "delegated" = Some (VObj d)
    ∧ d !! "disableAnimations" = Some (VBool true)
    ∧ out !! "disableAnimations" = None.
Proof.
  destruct (legacy_field_delegated sampleSFC samplePreset sampleToNumber
              sampleOwnProperties sampleProps sampleChildren (VBool true))
    as (out & console & d & Hrender & _ & Hbag & Hd & Hout).
  - vm_compute. reflexivity.
  - vm_compute. reflexivity.
  - exists out, console, d. repeat split; assumption.
Defined.

(** * Where the statements of the specification stop short *)

(** C2 as stated fails: [duration: 1.5] is a number, so it is stored as it
    is, and 1.5 is not an integer. *)
Lemma timing_fields_integers_fails :
  ¬ (∀ this_props prop,
       prop ∈ timingPropNames →
       match
         render sampleSFC samplePreset sampleToNumber sampleOwnProperties
           this_props
       with
       | Some (out, _) => ∃ n, out !! prop = Some (VNum n)
                               ∧ isInteger n = true
       | None => True
       end).
Proof.
  intros Hclaim.
  specialize (Hclaim fractionalProps "duration" ltac:(by_table)).
  vm_compute in Hclaim. destruct Hclaim as (n & [= <-] & Hinteger).
  discriminate Hinteger.
Qed.

(** C3 as stated fails: with [disableAnimations: undefined] the field is
    present on the props, yet no deprecation warning is written. *)
Lemma deprecation_undefined_silent :
  ¬ (∀ this_props v,
       this_props !! "disableAnimations" = Some v →
       match
         render sampleSFC samplePreset sampleToNumber sampleOwnProperties
           this_props
       with
       | Some (out, console) =>
           List.filter isDeprecation console
           = [ConsoleWarn deprecatedDisableAnimations]
           ∧ out !! "disableAllAnimations" = Some v
           ∧ out !! "disableAnimations" = None
       | None => True
       end).
Proof.
  intros Hclaim.
  specialize (Hclaim undefinedLegacyProps VUndefined eq_refl).
  vm_compute in Hclaim. destruct Hclaim as [Hlog _]. discriminate Hlog.
Qed.

(** C4 as stated fails: a caller's prop named [delegated] is outside the
    schema, and the top level of the result has a field of that name. *)
Lemma delegated_named_prop_on_top :
  ¬ (∀ this_props k v,
       this_props !! k = Some v → k ∉ propTypes.*1 →
       match
         render sampleSFC samplePreset sampleToNumber sampleOwnProperties
           this_props
       with
       | Some (out, _) =>
           (∃ d, out !! "delegated" = Some (VObj d) ∧ is_Some (d !! k))
           ∧ out !! k = None
       | None => True
       end).
Proof.
  intros Hclaim.
  specialize (Hclaim delegatedProp "delegated" (VNum (ofZ 2)) eq_refl
                ltac:(by_table)).
  vm_compute in Hclaim. destruct Hclaim as [_ Htop]. discriminate Htop.
Qed.

(** C5 as stated fails: with a caller's prop named [delegated], that name
    is a key of the bag and a key of the top level. *)
Lemma delegated_key_on_both_sides :
  ¬ (∀ this_props,
       match
         render sampleSFC samplePreset sampleToNumber sampleOwnProperties
           this_props
       with
       | Some (out, _) =>
           ∀ d, out !! "delegated" = Some (VObj d) → dom d ## dom out
       | None => True
       end).
Proof.
  intros Hclaim. specialize (Hclaim delegatedAndFoo).
  rewrite (render_eq sampleSFC samplePreset sampleToNumber sampleOwnProperties
             delegatedAndFoo []) in Hclaim by (vm_compute; reflexivity).
  apply (Hclaim (delegatedOf sampleOwnProperties delegatedAndFoo)
           (lookup_outputOf_delegated _ _ _ _ _) "delegated");
    apply elem_of_dom.
  - exists (VStr "x"). vm_compute. reflexivity.
  - rewrite lookup_outputOf_delegated. eauto.
Qed.

(** C7 as stated fails: with a plain object for [children] React throws,
    and so does [convertProps]. *)
Lemma object_child_throws :
  ¬ (∀ this_props,
       is_Some (render sampleSFC samplePreset sampleToNumber
                  sampleOwnProperties this_props)).
Proof.
  intros Hclaim. destruct (Hclaim objectChild) as [result Hresult].
  vm_compute in Hresult. discriminate Hresult.
Qed.

(** C9 as stated fails: converting the result for [<div />] again changes
    the key of the child from [".0"] to [".$.0"]. *)
Lemma renormalize_rekeys :
  ¬ (∀ this_props,
       match
         render sampleSFC samplePreset sampleToNumber sampleOwnProperties
           this_props
       with
       | Some (out, _) =>
           match
             render sampleSFC samplePreset sampleToNumber sampleOwnProperties
               (delete "delegated" out)
           with
           | Some (out', _) =>
               delete "delegated" out' = delete "delegated" out
           | None => False
           end
       | None => True
       end).
Proof.
  intros Hclaim. specialize (Hclaim singleChild).
  rewrite (render_eq sampleSFC samplePreset sampleToNumber sampleOwnProperties
             singleChild [VElem (VStr "div") (Some ".0") VNull ∅])
    in Hclaim by (vm_compute; reflexivity).
  rewrite (render_eq sampleSFC samplePreset sampleToNumber sampleOwnProperties
             _ [VElem (VStr "div") (Some ".$.0") VNull ∅])
    in Hclaim by (vm_compute; reflexivity).
  apply (f_equal (λ o : Obj, o !! "children")) in Hclaim.
  vm_compute in Hclaim. discriminate Hclaim.
Qed.

(** * Worked examples *)

Example parseInt_examples :
  parseInt "42" 10 = ofZ 42
  ∧ parseInt "  -12px" 10 = ofZ (-12)
  ∧ parseInt "1e3" 10 = ofZ 1
  ∧ parseInt "-0" 10 = S754_zero true
  ∧ parseInt "" 10 = S754_nan
  ∧ parseInt "abc" 10 = S754_nan
  ∧ parseInt "9007199254740993" 10 = ofZ 9007199254740992.
Proof. vm_compute. repeat split; reflexivity. Qed.

(** 310 nines are beyond the largest binary64 number. *)
Example parseInt_overflow :
  parseInt (string_of_list_ascii (repeat "9"%char 310)) 10
  = S754_infinity false.
Proof. vm_compute. reflexivity. Qed.

Example toArray_nested :
  React_Children_toArray
    (VArr [divElement; VNull; VArr [itemElement; VStr "text"]])
  = Some [VElem (VStr "div") (Some ".0") VNull ∅;
          VElem (VFun "Item") (Some ".2:$a") VNull ∅;
          VStr "text"].
Proof. reflexivity. Qed.

(** [normalize({disableAnimations: true})]. *)
Example normalize_legacy :
  let result :=
    normalize sampleSFC samplePreset sampleToNumber sampleOwnProperties
      {["disableAnimations" := VBool true]} in
  consoleOutput result = Some [ConsoleWarn deprecatedDisableAnimations]
  ∧ field result "disableAllAnimations" = Some (Some (VBool true))
  ∧ field result "disableAnimations" = Some None
  ∧ field result "duration" = Some (Some (VNum (ofZ 350))).
Proof. vm_compute. repeat split; reflexivity. Qed.

(** [normalize({foo: 1, style: {color: 'red'},
    maintainContainerHeight: false})]. *)
Example normalize_delegated :
  let result :=
    normalize sampleSFC samplePreset sampleToNumber sampleOwnProperties
      (list_to_map
         [("foo", VNum (ofZ 1));
          ("style", VObj {["color" := VStr "red"]});
          ("maintainContainerHeight", VBool false)]) in
  consoleOutput result = Some []
  ∧ field result "delegated"
    = Some (Some (VObj
                    (list_to_map
                       [("foo", VNum (ofZ 1));
                        ("style",
                         VObj (list_to_map
                                 [("position", VStr "relative");
                                  ("color", VStr "red")]))])))
  ∧ field result "foo" = Some None
  ∧ field result "style" = Some None.
Proof. vm_compute. repeat split; reflexivity. Qed.

(** [normalize({children: <div />})] and [normalize({children:
    undefined})]. *)
Example normalize_children :
  field
    (normalize sampleSFC samplePreset sampleToNumber sampleOwnProperties
       {["children" := divElement]}) "children"
  = Some (Some (VArr [VElem (VStr "div") (Some ".0") VNull ∅]))
  ∧ field
      (normalize sampleSFC samplePreset sampleToNumber sampleOwnProperties
         {["children" := VUndefined]}) "children"
    = Some (Some (VArr [])).
Proof. vm_compute. repeat split; reflexivity. Qed.

(** [normalize({enterClassName: {from: 'a', to: 'b'}}).enterClassName()] and
    [normalize({enterClassName: fn}).enterClassName === fn]. *)
Example normalize_animation :
  field
    (normalize sampleSFC samplePreset sampleToNumber sampleOwnProperties
       {["enterClassName" := sampleShape]}) "enterClassName"
  = Some (Some (VArrow sampleShape))
  ∧ callArrow (VArrow sampleShape) [] = Some sampleShape
  ∧ field
      (normalize sampleSFC samplePreset sampleToNumber sampleOwnProperties
         {["enterClassName" := VFun "fn"]}) "enterClassName"
    = Some (Some (VFun "fn")).
Proof. vm_compute. repeat split; reflexivity. Qed.

(** * The further properties at sample props *)

(** [convertProps(sampleProps)] on a component whose props are
    [{duration: 1.5}]: [foo] stays on top, and the legacy field is left
    behind as [undefined]. *)
Lemma delegation_reads_component_props_witness :
  ∃ out console,
    convertProps sampleSFC samplePreset sampleToNumber sampleOwnProperties
      fractionalProps sampleProps [] = Some (out, console)
    ∧ out !! "foo" = Some (VNum (ofZ 1))
    ∧ out !! "disableAnimations" = Some VUndefined.
Proof.
  destruct (delegation_reads_component_props sampleSFC samplePreset
              sampleToNumber sampleOwnProperties fractionalProps sampleProps
              sampleChildren)
    as (out & console & d & Hconvert & _ & _ & _ & Htop & Hlegacy).
  - vm_compute. reflexivity.
  - exists out, console. split; [exact Hconvert |]. split.
    + destruct (Htop "foo") as [_ Hfoo]; [by_table | by_table |].
      rewrite Hfoo by reflexivity. reflexivity.
    + apply Hlegacy; [reflexivity | vm_compute; discriminate].
Defined.

(** [easing: 'ease-in-out'] comes out as it went in. *)
Lemma untouched_props_pass_through_witness :
  ∃ out console,
    render sampleSFC samplePreset sampleToNumber sampleOwnProperties
      sampleProps = Some (out, console)
    ∧ out !! "easing" = Some (VStr "ease-in-out").
Proof.
  destruct (untouched_props_pass_through sampleSFC samplePreset
              sampleToNumber sampleOwnProperties sampleProps sampleChildren
              "easing")
    as (out & console & Hrender & Hout).
  - by_table.
  - vm_compute. reflexivity.
  - exists out, console. split; [exact Hrender |].
    rewrite Hout. reflexivity.
Defined.

(** [delay: '120ms'] in two components that share nothing else. *)
Lemma field_locality_witness :
  ∃ out1 console1 out2 console2,
    render sampleSFC samplePreset sampleToNumber sampleOwnProperties
      sampleProps = Some (out1, console1)
    ∧ render sampleSFC samplePreset sampleToNumber sampleOwnProperties
        numeralProps = Some (out2, console2)
    ∧ out1 !! "delay" = out2 !! "delay".
Proof.
  destruct (field_locality sampleSFC samplePreset sampleToNumber
              sampleOwnProperties sampleProps numeralProps sampleChildren []
              "delay")
    as (out1 & console1 & out2 & console2 & Hrender1 & Hrender2 & Hsame & _).
  - by_table.
  - vm_compute. reflexivity.
  - vm_compute. reflexivity.
  - vm_compute. reflexivity.
  - exists out1, console1, out2, console2. repeat split; assumption.
Defined.

(** [duration: null] is stored as [null], without a word. *)
Lemma timing_absent_null_boolean_witness :
  ∃ out console,
    render sampleSFC samplePreset sampleToNumber sampleOwnProperties
      nullDurationProps = Some (out, console)
    ∧ out !! "duration" = Some VNull
    ∧ List.filter (namesField "duration") console = [].
Proof.
  destruct (timing_absent_null_boolean sampleSFC samplePreset sampleToNumber
              sampleOwnProperties nullDurationProps [] "duration")
    as (out & console & Hrender & _ & Hnull).
  - by_table.
  - vm_compute. reflexivity.
  - exists out, console. split; [exact Hrender |].
    apply (Hnull VNull); [reflexivity | left; reflexivity].
Defined.

(** The four lines [sampleProps] puts on the console, in order. *)
Lemma console_order_witness :
  ∃ out,
    convertProps sampleSFC samplePreset sampleToNumber sampleOwnProperties
      sampleProps sampleProps []
    = Some (out,
            [ConsoleWarn statelessFunctionalComponentSupplied;
             ConsoleError
               (invalidTypeForTimingProp "duration" (VNum S754_nan)
                  (VNum (ofZ 350)));
             ConsoleError
               (invalidTypeForTimingProp "staggerDelayBy" (VNum S754_nan)
                  (VNum (ofZ 0)));
             ConsoleWarn deprecatedDisableAnimations]).
Proof.
  destruct (console_order sampleSFC samplePreset sampleToNumber
              sampleOwnProperties sampleProps sampleProps sampleChildren [])
    as (out & written & Hconvert & Hwritten & _).
  - vm_compute. reflexivity.
  - exists out. rewrite Hconvert, Hwritten. vm_compute. reflexivity.
Defined.

(** Every prop of [sampleProps] is on one side or the other. *)
Lemma result_keys_witness :
  ∃ out console d,
    render sampleSFC samplePreset sampleToNumber sampleOwnProperties
      sampleProps = Some (out, console)
    ∧ out !! "delegated" = Some (VObj d)
    ∧ dom sampleProps ⊆ dom out ∪ dom d.
Proof.
  destruct (result_keys sampleSFC samplePreset sampleToNumber
              sampleOwnProperties sampleProps sampleChildren)
    as (out & console & d & Hrender & Hbag & _ & _ & Hall).
  - vm_compute. reflexivity.
  - exists out, console, d. repeat split; assumption.
Defined.

(** [duration: ' +42px'] is 42. *)
Lemma timing_numeral_witness :
  ∃ out console,
    render sampleSFC samplePreset sampleToNumber sampleOwnProperties
      numeralProps = Some (out, console)
    ∧ out !! "duration" = Some (VNum (ofZ 42))
    ∧ List.filter (namesField "duration") console = [].
Proof.
  apply (timing_numeral sampleSFC samplePreset sampleToNumber
           sampleOwnProperties numeralProps [] "duration" " " true 42%N "px").
  - by_table.
  - reflexivity.
  - reflexivity.
  - vm_compute. reflexivity.
  - vm_compute. reflexivity.
Defined.

(** [staggerDelayBy: '-5'] is -5. *)
Lemma timing_negative_numeral_witness :
  ∃ out console,
    render sampleSFC samplePreset sampleToNumber sampleOwnProperties
      numeralProps = Some (out, console)
    ∧ out !! "staggerDelayBy" = Some (VNum (negate (ofZ 5)))
    ∧ List.filter (namesField "staggerDelayBy") console = [].
Proof.
  apply (timing_negative_numeral sampleSFC samplePreset sampleToNumber
           sampleOwnProperties numeralProps [] "staggerDelayBy" "" 5%N "").
  - by_table.
  - reflexivity.
  - reflexivity.
  - vm_compute. reflexivity.
  - vm_compute. reflexivity.
Defined.

(** [staggerDurationBy: '.5'] is not a number to [parseInt]. *)
Lemma timing_without_digits_witness :
  ∃ out console,
    render sampleSFC samplePreset sampleToNumber sampleOwnProperties
      numeralProps = Some (out, console)
    ∧ out !! "staggerDurationBy" = Some (VNum (ofZ 0))
    ∧ List.filter (namesField "staggerDurationBy") console
      = [ConsoleError
           (invalidTypeForTimingProp "staggerDurationBy" (VNum S754_nan)
              (VNum (ofZ 0)))].
Proof.
  apply (timing_without_digits sampleSFC samplePreset sampleToNumber
           sampleOwnProperties numeralProps [] "staggerDurationBy" ".5").
  - by_table.
  - reflexivity.
  - vm_compute. reflexivity.
  - vm_compute. reflexivity.
Defined.

(** [<FlipMove><div /></FlipMove>]: 350 for [duration], the wrapped preset
    for [enterClassName], and animations enabled. *)
Lemma normalize_defaults_witness :
  ∃ out console,
    normalize sampleSFC samplePreset sampleToNumber sampleOwnProperties
      singleChild = Some (out, console)
    ∧ out !! "duration" = Some (VNum (ofZ 350))
    ∧ out !! "enterClassName" = Some (VArrow samplePreset)
    ∧ out !! "disableAllAnimations" = Some (VBool false).
Proof.
  destruct (normalize_defaults sampleSFC samplePreset sampleToNumber
              sampleOwnProperties singleChild
              [VElem (VStr "div") (Some ".0") VNull ∅])
    as (out & console & Hnormalize & Htiming & _ & Hanimation & Hdisable).
  - vm_compute. reflexivity.
  - exists out, console. split; [exact Hnormalize |].
    split; [| split].
    + destruct (Htiming "duration") as [Hout _];
        [by_table | reflexivity | exact Hout].
    + apply Hanimation; [by_table | reflexivity].
    + apply Hdisable; reflexivity.
Defined.

(** [{key: 'k', ref: r, foo: 1}]: [foo] is forwarded; [key], [ref] and the
    default of [duration] are not. *)
Lemma normalize_delegates_raw_witness :
  ∃ out console d,
    normalize sampleSFC samplePreset sampleToNumber sampleOwnProperties
      keyedProps = Some (out, console)
    ∧ out !! "delegated" = Some (VObj d)
    ∧ d !! "foo" = Some (VNum (ofZ 1))
    ∧ d !! "key" = None
    ∧ d !! "ref" = None
    ∧ d !! "duration" = None.
Proof.
  destruct (normalize_delegates_raw sampleSFC samplePreset sampleToNumber
              sampleOwnProperties keyedProps [])
    as (out & console & d & Hnormalize & Hbag & Hschema & Hreserved & Hother
        & _).
  - vm_compute. reflexivity.
  - exists out, console, d. split; [exact Hnormalize |].
    split; [exact Hbag |]. split; [| split; [| split]].
    + rewrite Hother by (by_table || discriminate). reflexivity.
    + apply (Hreserved "key"). by_table.
    + apply (Hreserved "ref"). by_table.
    + apply Hschema. by_table.
Defined.

(** [{duration: 1.5}] and no child: nothing on the console. *)
Lemma normalize_quiet_witness :
  ∃ out,
    normalize sampleSFC samplePreset sampleToNumber sampleOwnProperties
      fractionalProps = Some (out, []).
Proof.
  apply (normalize_quiet sampleSFC samplePreset sampleToNumber
           sampleOwnProperties fractionalProps []).
  - vm_compute. reflexivity.
  - intros prop Hprop. unfold timingPropNames in Hprop.
    rewrite !elem_of_cons, elem_of_nil in Hprop.
    destruct Hprop as [-> | [-> | [-> | [-> | []]]]];
      [right; exists onePointFive; split; reflexivity
      | left; reflexivity ..].
  - reflexivity.
  - constructor.
Defined.
